(** * jvol container I/O (src/jvol/io.py): a shallow embedding

    The module under study is the serialization layer of the jvol codec:
    it dispatches between the native [.jvol] container and ITK, assembles
    the container dictionary written by [np.savez] and parses it again.

    Layout of the development:
    - [Py]      exceptions and the result type;
    - [Np]      the fragment of numpy the module relies on (dtypes,
                fixed-width wrap-around, n-d arrays as flat payloads);
    - [PathLib] [pathlib.PurePosixPath.name] and [.suffix];
    - [Jvol]    files, the state-and-exception monad in which the file
                system is threaded, and the functions of io.py,
                parameterised by the collaborators that live outside that
                file (codec kernels, ITK, IEEE arithmetic);
    - [Fixture] a small instantiation of the collaborators on which the
                functions can be run. *)

From Stdlib Require Import ZArith NArith Ascii String List Bool Lia.
From stdpp Require Import base gmap strings list fin_maps.

Open Scope string_scope.
Open Scope Z_scope.

(** ** Python exceptions and results *)

Module Py.

Inductive exn : Type :=
| ValueError
| TypeError
| KeyError (key : string)
| IndexError
| AssertionError
| FileNotFoundError
| OverflowError
| EOFError
| RuntimeError.

Inductive result (A : Type) : Type :=
| OK (a : A)
| Error (e : exn).

Arguments OK {A} a.
Arguments Error {A} e.

Definition rbind {A B : Type} (r : result A) (k : A -> result B) : result B :=
  match r with
  | OK a => k a
  | Error e => Error e
  end.

Definition is_ok {A : Type} (r : result A) : bool :=
  match r with OK _ => true | Error _ => false end.

End Py.

Export Py.

(** ** The numpy fragment *)

Module Np.

Inductive dtype : Type :=
| Int8 | Int16 | Int32 | Int64
| UInt8 | UInt16 | UInt32 | UInt64
| Float32 | Float64.

#[global] Instance dtype_eq_dec : EqDecision dtype.
Proof. solve_decision. Defined.

Definition bits (d : dtype) : Z :=
  match d with
  | Int8 | UInt8 => 8
  | Int16 | UInt16 => 16
  | Int32 | UInt32 | Float32 => 32
  | Int64 | UInt64 | Float64 => 64
  end.

Definition is_float (d : dtype) : bool :=
  match d with Float32 | Float64 => true | _ => false end.

Definition is_signed (d : dtype) : bool :=
  match d with Int8 | Int16 | Int32 | Int64 => true | _ => false end.

(** Smallest and largest value of an integer dtype. *)
Definition dtype_min (d : dtype) : Z :=
  if is_signed d then - 2 ^ (bits d - 1) else 0.

Definition dtype_max (d : dtype) : Z :=
  if is_signed d then 2 ^ (bits d - 1) - 1 else 2 ^ bits d - 1.

Definition in_range (d : dtype) (z : Z) : bool :=
  (dtype_min d <=? z) && (z <=? dtype_max d).

(** Conversion of an unbounded integer into a fixed-width integer dtype:
    two's-complement wrap-around.  Float payloads are left alone. *)
Definition wrap (d : dtype) (z : Z) : Z :=
  if is_float d then z
  else if is_signed d
       then (z + 2 ^ (bits d - 1)) mod 2 ^ bits d - 2 ^ (bits d - 1)
       else z mod 2 ^ bits d.

(** An n-dimensional array: element type, shape, and the elements in C
    (row-major) order.  The payload of an integer element is its value;
    the payload of a floating-point element is its IEEE-754 bit pattern. *)
Record ndarray : Type := mk_ndarray {
  dtype_of : dtype;
  shape : list N;
  data : list Z
}.

Definition size_of (s : list N) : N := fold_right N.mul 1%N s.

Definition ndim (a : ndarray) : nat := length (shape a).

(** Well-formed arrays carry exactly [prod shape] elements. *)
Definition wf (a : ndarray) : Prop :=
  N.of_nat (length (data a)) = size_of (shape a).

Definition wfb (a : ndarray) : bool :=
  (N.of_nat (length (data a)) =? size_of (shape a))%N.

(** A numpy scalar ([np.int16(3)], the result of [a.min()]). *)
Record scalar : Type := mk_scalar {
  sdtype : dtype;
  sval : Z
}.

(** [np.asanyarray] on a scalar: a 0-d array. *)
Definition asarray (s : scalar) : ndarray :=
  {| dtype_of := sdtype s; shape := []; data := [sval s] |}.

Fixpoint list_min (x : Z) (l : list Z) : Z :=
  match l with
  | [] => x
  | y :: l' => list_min (Z.min x y) l'
  end.

Fixpoint list_max (x : Z) (l : list Z) : Z :=
  match l with
  | [] => x
  | y :: l' => list_max (Z.max x y) l'
  end.

(** The array [np.array(t, dtype=d)] yields for a tuple of Python integers
    [t] when it yields one: every integer reduced modulo the width, which
    leaves an integer that fits as it is.  Whether it yields one is
    [np_array] below. *)
Definition array_of_ints (d : dtype) (t : list Z) : ndarray :=
  {| dtype_of := d; shape := [N.of_nat (length t)]; data := map (wrap d) t |}.

(** [a[:n]]: the first [n] entries along axis 0; a 0-d array cannot be
    sliced. *)
Definition slice_rows (n : N) (a : ndarray) : result ndarray :=
  match shape a with
  | [] => Error IndexError
  | r :: rest =>
      let r' := N.min n r in
      OK {| dtype_of := dtype_of a;
            shape := r' :: rest;
            data := take (N.to_nat (r' * size_of rest)) (data a) |}
  end.

(** Multi-indices of a shape in C order, and the flat offset of one. *)
Fixpoint indices (s : list nat) : list (list nat) :=
  match s with
  | [] => [[]]
  | n :: rest => flat_map (fun i => map (cons i) (indices rest)) (seq 0 n)
  end.

Definition offset (s idx : list nat) : nat :=
  fold_left (fun acc p => (acc * fst p + snd p)%nat) (combine s idx) 0%nat.

(** [a.T]: axes reversed, element [I] of the result is element [rev I]
    of [a]. *)
Definition transpose (a : ndarray) : ndarray :=
  let s := map N.to_nat (shape a) in
  {| dtype_of := dtype_of a;
     shape := rev (shape a);
     data := map (fun I => nth (offset s (rev I)) (data a) 0) (indices (rev s)) |}.

(** Conversion of a Python integer to binary64, as a payload: sign bit,
    biased exponent, fraction.  Exact for [|z| < 2^53], which covers every
    integer literal of the module. *)
Definition f64_of_int (z : Z) : Z :=
  if z =? 0 then 0
  else
    let m := Z.abs z in
    let e := Z.log2 m in
    (if z <? 0 then 2 ^ 63 else 0) + (e + 1023) * 2 ^ 52 + (m - 2 ^ e) * 2 ^ (52 - e).

End Np.

Export Np.

(** ** pathlib *)

Module PathLib.

(** A path is its POSIX text. *)
Definition Path : Type := string.

Definition slash : ascii := "/"%char.
Definition dot : ascii := "."%char.

(** Components between slashes; [cur] accumulates the current one. *)
Fixpoint split_parts (s : string) (cur : string) : list string :=
  match s with
  | EmptyString => [cur]
  | String c rest =>
      if Ascii.eqb c slash then cur :: split_parts rest ""
      else split_parts rest (String.append cur (String c ""))
  end.

(** pathlib drops empty and ["."] components when it parses a path. *)
Definition parts (p : Path) : list string :=
  filter (fun c => c <> "" /\ c <> ".") (split_parts p "").

(** [PurePath.name]: the final component, [""] when there is none. *)
Definition name (p : Path) : string := List.last (parts p) "".

(** [str.rfind(".")]: position of the last dot, if any. *)
Fixpoint rfind_dot (s : string) (i : nat) (found : option nat) : option nat :=
  match s with
  | EmptyString => found
  | String c rest =>
      rfind_dot rest (S i) (if Ascii.eqb c dot then Some i else found)
  end.

(** [PurePath.suffix]:
    [i = name.rfind('.'); name[i:] if 0 < i < len(name) - 1 else ''] *)
Definition suffix (p : Path) : string :=
  let n := name p in
  match rfind_dot n 0 None with
  | Some i =>
      if (0 <? i)%nat && (i <? String.length n - 1)%nat
      then String.substring i (String.length n - i) n
      else ""
  | None => ""
  end.

End PathLib.

Export PathLib.

(** ** The module io.py *)

Module Jvol.

(** *** Files *)

(** What a path may hold: an [.npz] archive, seen as the mapping from member
    name to array that [np.load] exposes, or any other byte content. *)
Inductive file : Type :=
| NpzFile (entries : gmap string ndarray)
| RawFile (bytes : list Z).

(** The file system: a flat mapping from path text to content.  Every key
    stands for a file of its own: two texts that name one file (links,
    [sub/../x]) are not modelled. *)
Definition FS : Type := gmap string file.

(** Computations that may raise and that act on the file system.  A raised
    exception keeps whatever state had been reached when it was raised. *)
Definition io (A : Type) : Type := FS -> result A * FS.

Definition ret {A : Type} (a : A) : io A := fun fs => (OK a, fs).

Definition raise {A : Type} (e : exn) : io A := fun fs => (Error e, fs).

Definition bind {A B : Type} (m : io A) (k : A -> io B) : io B :=
  fun fs =>
    match m fs with
    | (OK a, fs') => k a fs'
    | (Error e, fs') => (Error e, fs')
    end.

(** A pure step that may raise. *)
Definition lift {A : Type} (r : result A) : io A := fun fs => (r, fs).

Notation "x <- m ;; k" := (bind m (fun x => k))
  (at level 100, m at next level, right associativity).

(** [np.savez(f, **d)] on the file just opened.  The write is taken to
    complete: a write that breaks off midway (a full disk) is not
    modelled. *)
Definition np_savez (path : Path) (d : gmap string ndarray) : io unit :=
  fun fs => (OK tt, <[path := NpzFile d]> fs).

(** [loaded[key]]. *)
Definition getitem (loaded : gmap string ndarray) (key : string) : result ndarray :=
  match loaded !! key with
  | Some a => OK a
  | None => Error (KeyError key)
  end.

(** *** Format keys (class FormatKeys, lines 17-32) *)

Inductive FormatKeys : Type :=
| IJK_TO_RAS
| QUANTIZATION_BLOCK
| DC_RLE_VALUES
| DC_RLE_COUNTS
| AC_RLE_VALUES
| AC_RLE_COUNTS
| AC_HUFFMAN_EOF_SYMBOL
| AC_HUFFMAN_SYMBOLS
| AC_HUFFMAN_BITS
| AC_HUFFMAN_VALUES
| AC_HUFFMAN_ENCODING
| DTYPE
| INTERCEPT
| SLOPE
| SHAPE.

(** The [.value] of a member; a member used as a key is this string as
    well, [FormatKeys] being a [str] subclass. *)
Definition value (k : FormatKeys) : string :=
  match k with
  | IJK_TO_RAS => "ijk_to_ras"
  | QUANTIZATION_BLOCK => "quantization_block"
  | DC_RLE_VALUES => "dc_rle_values"
  | DC_RLE_COUNTS => "dc_rle_counts"
  | AC_RLE_VALUES => "ac_rle_values"
  | AC_RLE_COUNTS => "ac_rle_counts"
  | AC_HUFFMAN_EOF_SYMBOL => "ac_huffman_eof_symbol"
  | AC_HUFFMAN_SYMBOLS => "ac_huffman_symbols"
  | AC_HUFFMAN_BITS => "ac_huffman_bits"
  | AC_HUFFMAN_VALUES => "ac_huffman_values"
  | AC_HUFFMAN_ENCODING => "ac_huffman_encoding"
  | DTYPE => "dtype"
  | INTERCEPT => "intercept"
  | SLOPE => "slope"
  | SHAPE => "shape"
  end.

(** *** The Huffman object (jvol/huffman.py, by its six attributes) *)

Module HuffmanCoding.

Record t : Type := make {
  data : ndarray;
  symbols_values : ndarray;
  symbols_counts : ndarray;
  bitsizes : ndarray;
  values : ndarray;
  eof_symbol : ndarray
}.

End HuffmanCoding.

(** *** Collaborators outside io.py

    The numeric kernels of the codec, the coordinate helpers, ITK and
    numpy's floating-point arithmetic are not part of io.py.  They are
    taken as an interface; nothing is assumed about what they compute. *)

Class External : Type := {
  (** numpy on IEEE payloads, and the content of uninitialised memory *)
  np_float_min : dtype -> list Z -> Z;
  np_float_max : dtype -> list Z -> Z;
  np_float_sub : dtype -> Z -> Z -> Z;
  np_cast : dtype -> dtype -> Z -> Z;
  np_empty : dtype -> Z;
  (** numpy's conversion of an out-of-range Python integer to a fixed-width
      dtype: [true] reduces modulo the width (numpy 1.x), [false] raises
      [OverflowError] (numpy 2) *)
  np_wraps_out_of_range : bool;
  (** numpy's exception for a file that is no archive: it depends on the
      bytes found ([EOFError] for an empty file, others for other content) *)
  np_load_other : list Z -> exn;
  (** the operating system's answer to [open(path, "wb")]: a missing
      directory, a directory at the path or a missing permission raise *)
  os_open_wb : Path -> FS -> result unit;
  np_vstack_promoting : ndarray -> list Z -> result ndarray;
  (** jvol.encoding: the divisors of a quantization table, the encoder *)
  quantization_divisors : Z * Z * Z -> Z -> ndarray;
  encode_array : ndarray -> ndarray -> result (ndarray * ndarray * ndarray * ndarray);
  (** jvol.huffman: [HuffmanCoding.from_rle] *)
  HuffmanCoding_from_rle : ndarray -> ndarray -> result HuffmanCoding.t;
  (** jvol.decoding: Huffman and run-length decoding, dequantization,
      block reassembly and rescaling *)
  inverse_chain :
    ndarray -> ndarray -> ndarray -> ndarray -> ndarray -> ndarray ->
    HuffmanCoding.t -> result ndarray;
  (** itk: images, reading and writing, views, geometry setters *)
  itk_image : Type;
  itk_imread : Path -> io itk_image;
  itk_imwrite : itk_image -> Path -> io unit;
  itk_array_view_from_image : itk_image -> ndarray;
  itk_image_view_from_array : ndarray -> result itk_image;
  itk_SetOrigin : itk_image -> ndarray -> itk_image;
  itk_SetDirection : itk_image -> ndarray -> itk_image;
  itk_SetSpacing : itk_image -> ndarray -> itk_image;
  (** jvol.transforms *)
  create_ijk_to_ras_from_itk_image : itk_image -> result ndarray;
  get_itk_metadata_from_ijk_to_ras : ndarray -> result (ndarray * ndarray * ndarray)
}.

Section Io.

Context {E : External}.

(** *** Files *)

(** [open(path, "wb")]: raises when the operating system refuses; otherwise
    the file is created, or truncated when it exists. *)
Definition open_wb (path : Path) : io unit :=
  fun fs =>
    match os_open_wb path fs with
    | OK _ => (OK tt, <[path := RawFile []]> fs)
    | Error e => (Error e, fs)
    end.

(** [np.load(path)]. *)
Definition np_load (path : Path) : io (gmap string ndarray) :=
  fun fs =>
    match fs !! path with
    | Some (NpzFile d) => (OK d, fs)
    | Some (RawFile bytes) => (Error (np_load_other bytes), fs)
    | None => (Error FileNotFoundError, fs)
    end.

(** [np.array(t, dtype=d)] for a tuple of Python integers [t]: the
    integers that fit are stored as they are; one that does not fit is
    reduced modulo the width or raises [OverflowError], by numpy's
    version. *)
Definition np_array (d : dtype) (t : list Z) : result ndarray :=
  if forallb (in_range d) t then OK (array_of_ints d t)
  else if np_wraps_out_of_range then OK (array_of_ints d t)
  else Error OverflowError.

(** *** numpy reductions and scalar arithmetic *)

(** [a.min()]: raises on an empty array. *)
Definition array_min (a : ndarray) : result scalar :=
  match data a with
  | [] => Error ValueError
  | x :: l =>
      OK {| sdtype := dtype_of a;
            sval := if is_float (dtype_of a)
                    then np_float_min (dtype_of a) (x :: l)
                    else list_min x l |}
  end.

(** [a.max()]. *)
Definition array_max (a : ndarray) : result scalar :=
  match data a with
  | [] => Error ValueError
  | x :: l =>
      OK {| sdtype := dtype_of a;
            sval := if is_float (dtype_of a)
                    then np_float_max (dtype_of a) (x :: l)
                    else list_max x l |}
  end.

(** [x - y] on two numpy scalars of one dtype: the result has that dtype;
    integer results wrap around (numpy warns and carries on). *)
Definition scalar_sub (x y : scalar) : scalar :=
  {| sdtype := sdtype x;
     sval := if is_float (sdtype x)
             then np_float_sub (sdtype x) (sval x) (sval y)
             else wrap (sdtype x) (sval x - sval y) |}.

(** [np.empty((), dtype=d)]: only its dtype is ever read back (line 127).
    The element is uninitialised memory; it is whatever the collaborator
    says, and no statement below depends on it. *)
Definition empty0 (d : dtype) : ndarray :=
  {| dtype_of := d; shape := []; data := [np_empty d] |}.

(** [a.astype(d)]. *)
Definition astype (d : dtype) (a : ndarray) : ndarray :=
  {| dtype_of := d; shape := shape a; data := map (np_cast (dtype_of a) d) (data a) |}.

(** [np.vstack((a, row))] for a list [row] of Python integers.  For a
    [float64] array the result is [float64] and the row is converted; any
    other dtype goes through numpy's type promotion. *)
Definition vstack (a : ndarray) (row : list Z) : result ndarray :=
  if decide (dtype_of a = Float64) then
    match shape a with
    | [c] =>
        if (c =? N.of_nat (length row))%N
        then OK {| dtype_of := Float64; shape := [2%N; c];
                   data := data a ++ map f64_of_int row |}
        else Error ValueError
    | [r; c] =>
        if (c =? N.of_nat (length row))%N
        then OK {| dtype_of := Float64; shape := [(r + 1)%N; c];
                   data := data a ++ map f64_of_int row |}
        else Error ValueError
    | _ => Error ValueError
    end
  else np_vstack_promoting a row.

(** *** Functions of sibling modules, as far as the specification fixes them *)

(** Modelled from the spec: [get_quantization_table] of jvol/encoding.py,
    which is not among the sources.  Section 4.1: a quality outside
    [1,100] is a usage error that fails fast instead of being clamped;
    sections 4.2 and 7: so is a non-positive block dimension.  The divisors
    themselves are the collaborator's. *)
Definition get_quantization_table (block_shape : Z * Z * Z) (quality : Z) : result ndarray :=
  let '(d1, d2, d3) := block_shape in
  if negb ((1 <=? quality) && (quality <=? 100)) then Error ValueError
  else if negb ((0 <? d1) && (0 <? d2) && (0 <? d3)) then Error ValueError
  else OK (quantization_divisors block_shape quality).

(** Modelled from the spec: the dtype chosen by [to_min_scalar_type] of
    jvol/casting.py, which is not among the sources.  Section 4.3: the
    narrowest integer width that losslessly represents the range,
    unsigned when no value is negative. *)
Definition min_scalar_dtype (lo hi : Z) : dtype :=
  if 0 <=? lo then
    if hi <=? dtype_max UInt8 then UInt8
    else if hi <=? dtype_max UInt16 then UInt16
    else if hi <=? dtype_max UInt32 then UInt32
    else UInt64
  else
    if (dtype_min Int8 <=? lo) && (hi <=? dtype_max Int8) then Int8
    else if (dtype_min Int16 <=? lo) && (hi <=? dtype_max Int16) then Int16
    else if (dtype_min Int32 <=? lo) && (hi <=? dtype_max Int32) then Int32
    else Int64.

(** Modelled from the spec: [to_min_scalar_type] of jvol/casting.py, which
    is not among the sources.  The values are kept, the dtype is replaced by
    the narrowest one; an array that is empty or not of integers is
    returned as it is. *)
Definition to_min_scalar_type (a : ndarray) : ndarray :=
  match data a with
  | [] => a
  | x :: l =>
      if is_float (dtype_of a) then a
      else {| dtype_of := min_scalar_dtype (list_min x l) (list_max x l);
              shape := shape a;
              data := data a |}
  end.

(** Modelled from the spec: [decode_array] of jvol/decoding.py, which is not
    among the sources.  Section 4.5: the inverse chain, then a cast into
    [dtype], asserting that the reconstructed array exactly matches
    [target_shape]. *)
Definition decode_array
    (dc_rle_values dc_rle_counts quantization_block target_shape intercept slope : ndarray)
    (dtype : dtype) (huffman_coding : HuffmanCoding.t) : result ndarray :=
  rbind (inverse_chain dc_rle_values dc_rle_counts quantization_block
                       target_shape intercept slope huffman_coding)
        (fun rec =>
           let out := astype dtype rec in
           if decide (map Z.of_N (shape out) = data target_shape)
           then OK out
           else Error AssertionError).

(** *** io.py, lines 133-135 *)

Definition last_row : list Z := [0; 0; 0; 1].

Definition fill_ijk_to_ras (ijk_to_ras : ndarray) : result ndarray :=
  vstack ijk_to_ras last_row.

(** *** io.py, lines 52-65 *)

Definition open_itk_image (path : Path) : io (ndarray * ndarray) :=
  image <- itk_imread path ;;
  let array := transpose (itk_array_view_from_image image) in
  ijk_to_ras <- lift (create_ijk_to_ras_from_itk_image image) ;;
  ret (array, ijk_to_ras).

Definition save_itk_image (array ijk_to_ras : ndarray) (path : Path) : io unit :=
  image <- lift (itk_image_view_from_array (transpose array)) ;;
  metadata <- lift (get_itk_metadata_from_ijk_to_ras ijk_to_ras) ;;
  let '(origin, rotation, spacing) := metadata in
  let image := itk_SetOrigin image origin in
  let image := itk_SetDirection image rotation in
  let image := itk_SetSpacing image spacing in
  itk_imwrite image path.

(** *** io.py, lines 68-105 *)

(** The dictionary literal of lines 87-102, in source order. *)
Definition save_dict_items
    (ijk_rows quantization_table dc_rle_values dc_rle_counts : ndarray)
    (dtype : dtype) (intercept slope : scalar) (shape_entry : ndarray)
    (huffman : HuffmanCoding.t) : list (string * ndarray) :=
  [ (value IJK_TO_RAS, ijk_rows);
    (value QUANTIZATION_BLOCK, quantization_table);
    (value DC_RLE_VALUES, to_min_scalar_type dc_rle_values);
    (value DC_RLE_COUNTS, dc_rle_counts);
    (value DTYPE, empty0 dtype);
    (value INTERCEPT, asarray intercept);
    (value SLOPE, asarray slope);
    (value SHAPE, shape_entry);
    ("huffman_eof_symbol", HuffmanCoding.eof_symbol huffman);
    ("huffman_symbols_values", HuffmanCoding.symbols_values huffman);
    ("huffman_symbols_counts", HuffmanCoding.symbols_counts huffman);
    ("huffman_bitsizes", HuffmanCoding.bitsizes huffman);
    ("huffman_values", HuffmanCoding.values huffman);
    ("huffman_data", HuffmanCoding.data huffman) ].

(** The mapping that the literal denotes once the shape is converted. *)
Definition archive (ijk_rows quantization_table dc_rle_values dc_rle_counts : ndarray)
    (dtype : dtype) (intercept slope : scalar) (array_shape : list N)
    (huffman : HuffmanCoding.t) : gmap string ndarray :=
  list_to_map (save_dict_items ijk_rows quantization_table dc_rle_values
                 dc_rle_counts dtype intercept slope
                 (array_of_ints UInt16 (map Z.of_N array_shape)) huffman).

Definition save_jvol (array ijk_to_ras : ndarray) (path : Path)
    (block_size quality : Z) : io unit :=
  let block_shape := (block_size, block_size, block_size) in
  quantization_table <- lift (get_quantization_table block_shape quality) ;;
  let dtype := dtype_of array in
  intercept <- lift (array_min array) ;;
  maximum <- lift (array_max array) ;;
  let slope := scalar_sub maximum intercept in
  encoded <- lift (encode_array array quantization_table) ;;
  let '(dc_rle_values, dc_rle_counts, ac_rle_values, ac_rle_counts) := encoded in
  huffman <- lift (HuffmanCoding_from_rle ac_rle_values ac_rle_counts) ;;
  ijk_rows <- lift (slice_rows 3 ijk_to_ras) ;;
  shape_entry <- lift (np_array UInt16 (map Z.of_N (shape array))) ;;
  let save_dict : gmap string ndarray :=
    list_to_map (save_dict_items ijk_rows quantization_table dc_rle_values
                   dc_rle_counts dtype intercept slope shape_entry huffman) in
  _ <- open_wb path ;;
  np_savez path save_dict.

(** The default arguments of [save_jvol]. *)
Definition default_block_size : Z := 4.
Definition default_quality : Z := 60.

(** The call [save_jvol(array, ijk_to_ras, path, **kwargs)]: a keyword that
    is not a parameter of [save_jvol] is a [TypeError]; a parameter that is
    not given takes its default. *)
Definition save_jvol_kwargs (array ijk_to_ras : ndarray) (path : Path)
    (kwargs : gmap string Z) : io unit :=
  if bool_decide (dom kwargs ⊆ ({[ "block_size"; "quality" ]} : gset string))
  then save_jvol array ijk_to_ras path
         (default default_block_size (kwargs !! "block_size"))
         (default default_quality (kwargs !! "quality"))
  else raise TypeError.

(** *** io.py, lines 108-130 *)

(** Lines 112-119: the Huffman object rebuilt from the archive. *)
Definition load_huffman (loaded : gmap string ndarray) : result HuffmanCoding.t :=
  rbind (getitem loaded "huffman_data") (fun data =>
  rbind (getitem loaded "huffman_symbols_values") (fun symbols_values =>
  rbind (getitem loaded "huffman_symbols_counts") (fun symbols_counts =>
  rbind (getitem loaded "huffman_bitsizes") (fun bitsizes =>
  rbind (getitem loaded "huffman_values") (fun values =>
  rbind (getitem loaded "huffman_eof_symbol") (fun eof_symbol =>
  OK (HuffmanCoding.make data symbols_values symbols_counts bitsizes values eof_symbol))))))).

Definition open_jvol (path : Path) : io (ndarray * ndarray) :=
  loaded <- np_load path ;;
  stored_ijk <- lift (getitem loaded (value IJK_TO_RAS)) ;;
  ijk_to_ras <- lift (fill_ijk_to_ras stored_ijk) ;;
  quantization_block <- lift (getitem loaded (value QUANTIZATION_BLOCK)) ;;
  huffman_coding <- lift (load_huffman loaded) ;;
  dc_rle_values <- lift (getitem loaded (value DC_RLE_VALUES)) ;;
  dc_rle_counts <- lift (getitem loaded (value DC_RLE_COUNTS)) ;;
  target_shape <- lift (getitem loaded (value SHAPE)) ;;
  intercept <- lift (getitem loaded (value INTERCEPT)) ;;
  slope <- lift (getitem loaded (value SLOPE)) ;;
  dtype_entry <- lift (getitem loaded (value DTYPE)) ;;
  array <- lift (decode_array dc_rle_values dc_rle_counts quantization_block
                   target_shape intercept slope (dtype_of dtype_entry) huffman_coding) ;;
  ret (array, ijk_to_ras).

(** *** io.py, lines 35-49 *)

Definition open_image (path : Path) : io (ndarray * ndarray) :=
  let _open := if String.eqb (suffix path) ".jvol" then open_jvol else open_itk_image in
  _open path.

Definition save_image (array ijk_to_ras : ndarray) (path : Path)
    (kwargs : gmap string Z) : io unit :=
  if String.eqb (suffix path) ".jvol"
  then save_jvol_kwargs array ijk_to_ras path kwargs
  else save_itk_image array ijk_to_ras path.

(** *** Pure readings of [save_jvol] and [open_jvol]

    Both functions compute first and touch the file system last
    ([save_jvol]) or first ([open_jvol]).  [container_of] is everything
    [save_jvol] does before line 104; [parse_container] is everything
    [open_jvol] does after line 109.  The lemmas [save_jvol_unfold] and
    [open_jvol_unfold] below relate them to the functions themselves. *)

Definition container_of (array ijk_to_ras : ndarray) (block_size quality : Z)
  : result (gmap string ndarray) :=
  rbind (get_quantization_table (block_size, block_size, block_size) quality) (fun quantization_table =>
  rbind (array_min array) (fun intercept =>
  rbind (array_max array) (fun maximum =>
  rbind (encode_array array quantization_table) (fun encoded =>
  let '(dc_rle_values, dc_rle_counts, ac_rle_values, ac_rle_counts) := encoded in
  rbind (HuffmanCoding_from_rle ac_rle_values ac_rle_counts) (fun huffman =>
  rbind (slice_rows 3 ijk_to_ras) (fun ijk_rows =>
  rbind (np_array UInt16 (map Z.of_N (shape array))) (fun shape_entry =>
  OK (list_to_map (save_dict_items ijk_rows quantization_table dc_rle_values
                     dc_rle_counts (dtype_of array) intercept
                     (scalar_sub maximum intercept) shape_entry huffman))))))))).

Definition parse_container (loaded : gmap string ndarray) : result (ndarray * ndarray) :=
  rbind (getitem loaded (value IJK_TO_RAS)) (fun stored_ijk =>
  rbind (fill_ijk_to_ras stored_ijk) (fun ijk_to_ras =>
  rbind (getitem loaded (value QUANTIZATION_BLOCK)) (fun quantization_block =>
  rbind (load_huffman loaded) (fun huffman_coding =>
  rbind (getitem loaded (value DC_RLE_VALUES)) (fun dc_rle_values =>
  rbind (getitem loaded (value DC_RLE_COUNTS)) (fun dc_rle_counts =>
  rbind (getitem loaded (value SHAPE)) (fun target_shape =>
  rbind (getitem loaded (value INTERCEPT)) (fun intercept =>
  rbind (getitem loaded (value SLOPE)) (fun slope =>
  rbind (getitem loaded (value DTYPE)) (fun dtype_entry =>
  rbind (decode_array dc_rle_values dc_rle_counts quantization_block
           target_shape intercept slope (dtype_of dtype_entry) huffman_coding) (fun array =>
  OK (array, ijk_to_ras)))))))))))).

(** The archive found at a path, if there is one. *)
Definition archive_at (fs : FS) (path : Path) : option (gmap string ndarray) :=
  match fs !! path with
  | Some (NpzFile d) => Some d
  | _ => None
  end.

End Io.

End Jvol.

Export Jvol.

(** ** A reference instantiation of the collaborators

    A small lossless stand-in for the codec, used to run the container
    layer on concrete volumes: every sample is its own block, the DC stream
    is run-length encoded (specification, section 4.3) and there are no AC
    residuals.  ITK files are kept as raw payloads. *)

Module Fixture.

Fixpoint rle_encode (l : list Z) : list (Z * Z) :=
  match l with
  | [] => []
  | x :: l' =>
      match rle_encode l' with
      | (y, n) :: r => if x =? y then (x, n + 1) :: r else (x, 1) :: (y, n) :: r
      | [] => [(x, 1)]
      end
  end.

Definition rle_decode (values counts : list Z) : list Z :=
  flat_map (fun p => repeat (fst p) (Z.to_nat (snd p))) (combine values counts).

(** numpy builds integer arrays as [int64] unless told otherwise. *)
Definition int64_vector (l : list Z) : ndarray :=
  {| dtype_of := Int64; shape := [N.of_nat (length l)]; data := l |}.

Definition divisors (block_shape : Z * Z * Z) (quality : Z) : ndarray :=
  let '(d1, d2, d3) := block_shape in
  {| dtype_of := UInt16;
     shape := [Z.to_N d1; Z.to_N d2; Z.to_N d3];
     data := repeat (101 - quality) (Z.to_nat (d1 * d2 * d3)) |}.

Definition encode (array quantization_table : ndarray)
  : result (ndarray * ndarray * ndarray * ndarray) :=
  let runs := rle_encode (data array) in
  OK (int64_vector (map fst runs), int64_vector (map snd runs),
      int64_vector [], int64_vector []).

Definition from_rle (ac_rle_values ac_rle_counts : ndarray) : result HuffmanCoding.t :=
  OK {| HuffmanCoding.data := {| dtype_of := UInt8; shape := [1%N]; data := [128] |};
        HuffmanCoding.symbols_values := ac_rle_values;
        HuffmanCoding.symbols_counts := ac_rle_counts;
        HuffmanCoding.bitsizes := int64_vector [1];
        HuffmanCoding.values := int64_vector [];
        HuffmanCoding.eof_symbol := {| dtype_of := Int64; shape := []; data := [0] |} |}.

Definition reconstruct
    (dc_rle_values dc_rle_counts quantization_block target_shape intercept slope : ndarray)
    (huffman_coding : HuffmanCoding.t) : result ndarray :=
  let samples := rle_decode (data dc_rle_values) (data dc_rle_counts) in
  let s := map Z.to_N (data target_shape) in
  if (N.of_nat (length samples) =? size_of s)%N
  then OK {| dtype_of := Int64; shape := s; data := samples |}
  else Error ValueError.

Definition image : Type := ndarray * (ndarray * ndarray * ndarray).

Definition unit_geometry : ndarray * ndarray * ndarray :=
  ({| dtype_of := Float64; shape := [3%N]; data := repeat 0 3 |},
   {| dtype_of := Float64; shape := [3%N; 3%N];
      data := map f64_of_int [1; 0; 0; 0; 1; 0; 0; 0; 1] |},
   {| dtype_of := Float64; shape := [3%N]; data := repeat (f64_of_int 1) 3 |}).

Definition imread (path : Path) : io image :=
  fun fs =>
    match fs !! path with
    | Some (RawFile bytes) =>
        (OK ({| dtype_of := UInt8; shape := [N.of_nat (length bytes)]; data := bytes |},
             unit_geometry), fs)
    | Some (NpzFile _) => (Error RuntimeError, fs)
    | None => (Error FileNotFoundError, fs)
    end.

Definition imwrite (img : image) (path : Path) : io unit :=
  fun fs => (OK tt, <[path := RawFile (data (fst img))]> fs).

Definition ijk_of_image (img : image) : result ndarray :=
  OK {| dtype_of := Float64; shape := [4%N; 4%N];
        data := map f64_of_int [1; 0; 0; 0; 0; 1; 0; 0; 0; 0; 1; 0; 0; 0; 0; 1] |}.

(** The sample volumes are integer volumes, so the floating-point
    operations are never reached; they are filled in with the integer
    ones. *)
Definition externals_with (wraps : bool) (open_answer : Path -> FS -> result unit)
  : External := {|
  np_float_min d l := match l with [] => 0 | x :: l' => list_min x l' end;
  np_float_max d l := match l with [] => 0 | x :: l' => list_max x l' end;
  np_float_sub d x y := x - y;
  np_cast src dst z := wrap dst z;
  np_empty d := 0;
  np_wraps_out_of_range := wraps;
  np_load_other bytes := match bytes with [] => EOFError | _ => ValueError end;
  os_open_wb := open_answer;
  np_vstack_promoting a row := Error TypeError;
  quantization_divisors := divisors;
  encode_array := encode;
  HuffmanCoding_from_rle := from_rle;
  inverse_chain := reconstruct;
  itk_image := image;
  create_ijk_to_ras_from_itk_image := ijk_of_image;
  get_itk_metadata_from_ijk_to_ras ijk := OK unit_geometry;
  itk_imread := imread;
  itk_imwrite := imwrite;
  itk_array_view_from_image img := fst img;
  itk_image_view_from_array a := OK (a, unit_geometry);
  itk_SetOrigin img o := (fst img, (o, snd (fst (snd img)), snd (snd img)));
  itk_SetDirection img r := (fst img, (fst (fst (snd img)), r, snd (snd img)));
  itk_SetSpacing img s := (fst img, (fst (snd img), s))
|}.

(** numpy 1.x on a file system that lets every file be opened. *)
#[export] Instance externals : External :=
  externals_with true (fun _ _ => OK tt).

(** The same with numpy 2's conversion of Python integers. *)
Definition numpy2 : External :=
  externals_with false (fun _ _ => OK tt).

(** Sample inputs. *)

Definition identity4 : ndarray :=
  {| dtype_of := Float64; shape := [4%N; 4%N];
     data := map f64_of_int [1; 0; 0; 0; 0; 1; 0; 0; 0; 0; 1; 0; 0; 0; 0; 1] |}.

(** The top three rows of [identity4]. *)
Definition identity_rows : ndarray :=
  {| dtype_of := Float64; shape := [3%N; 4%N];
     data := map f64_of_int [1; 0; 0; 0; 0; 1; 0; 0; 0; 0; 1; 0] |}.

(** A [2x1x3] volume of [int16] samples: not divisible by the default
    block shape. *)
Definition volume_2x1x3 : ndarray :=
  {| dtype_of := Int16; shape := [2%N; 1%N; 3%N]; data := [7; 7; -3; 0; 0; 12] |}.

(** A [1x1x2] volume of [int8] samples spanning the whole range. *)
Definition volume_int8 : ndarray :=
  {| dtype_of := Int8; shape := [1%N; 1%N; 2%N]; data := [-128; 127] |}.

(** A [65536x1x1] volume of zero bytes. *)
Definition volume_long : ndarray :=
  {| dtype_of := UInt8; shape := [65536%N; 1%N; 1%N];
     data := repeat 0 (Pos.to_nat 65536) |}.

(** The archive [save_jvol] builds for a volume with the identity
    transform and the default parameters (empty if it raises). *)
Definition sample_archive (array : ndarray) : gmap string ndarray :=
  match container_of array identity4 default_block_size default_quality with
  | OK d => d
  | Error _ => ∅
  end.

(** The file system after saving to [scan.jvol] in an empty one. *)
Definition sample_fs (array : ndarray) : FS :=
  <["scan.jvol" := NpzFile (sample_archive array)]> ∅.

End Fixture.


(** ** Vocabulary for statements about the container and about paths *)

(** The member names [save_jvol] writes (lines 88-101) and [open_jvol]
    reads (lines 110-127), in the order of the dictionary literal. *)
Definition member_names : list string :=
  [ "ijk_to_ras"; "quantization_block"; "dc_rle_values"; "dc_rle_counts";
    "dtype"; "intercept"; "slope"; "shape";
    "huffman_eof_symbol"; "huffman_symbols_values"; "huffman_symbols_counts";
    "huffman_bitsizes"; "huffman_values"; "huffman_data" ].

(** A text without a slash: a single path component. *)
Fixpoint no_slash (s : string) : bool :=
  match s with
  | EmptyString => true
  | String c rest => negb (Ascii.eqb c slash) && no_slash rest
  end.

(** The order in which [open_jvol] reads the members (lines 110-127). *)
Definition read_order : list string :=
  [ "ijk_to_ras"; "quantization_block";
    "huffman_data"; "huffman_symbols_values"; "huffman_symbols_counts";
    "huffman_bitsizes"; "huffman_values"; "huffman_eof_symbol";
    "dc_rle_values"; "dc_rle_counts"; "shape"; "intercept"; "slope"; "dtype" ].

(** Number of multi-indices of a shape. *)
Definition prod_nat (s : list nat) : nat := fold_right Nat.mul 1%nat s.

(** ** Further sample inputs *)

Module Samples.

(** A 4x4 transform whose last row is [0, 0, 0, 2]. *)
Definition scaled4 : ndarray :=
  {| dtype_of := Float64; shape := [4%N; 4%N];
     data := map f64_of_int [1; 0; 0; 0; 0; 1; 0; 0; 0; 0; 1; 0; 0; 0; 0; 2] |}.

(** A vector of three bytes. *)
Definition vector3 : ndarray :=
  {| dtype_of := UInt8; shape := [3%N]; data := [1; 2; 3] |}.

End Samples.

(** * Properties *)

(** ** Sanity checks of the library fragments *)

Example suffix_jvol : suffix "data/scan.jvol" = ".jvol".
Proof. reflexivity. Qed.

Example suffix_double : suffix "scan.nii.gz" = ".gz".
Proof. reflexivity. Qed.

Example suffix_hidden : suffix "out/.jvol" = "".
Proof. reflexivity. Qed.

Example suffix_dir : suffix "run.jvol/scan" = "".
Proof. reflexivity. Qed.

Example transpose_2x3 :
  transpose {| dtype_of := Int8; shape := [2%N; 3%N]; data := [1; 2; 3; 4; 5; 6] |}
  = {| dtype_of := Int8; shape := [3%N; 2%N]; data := [1; 4; 2; 5; 3; 6] |}.
Proof. reflexivity. Qed.

Example wrap_samples : wrap UInt16 65536 = 0 /\ wrap UInt16 65535 = 65535 /\ wrap Int8 255 = -1.
Proof. repeat split. Qed.

Example f64_of_int_one : f64_of_int 1 = 0x3FF0000000000000.
Proof. reflexivity. Qed.

Example f64_of_int_minus_two : f64_of_int (-2) = 0xC000000000000000.
Proof. reflexivity. Qed.

Example min_scalar_dtype_samples :
  min_scalar_dtype 0 255 = UInt8 /\ min_scalar_dtype 0 256 = UInt16
  /\ min_scalar_dtype (-1) 127 = Int8 /\ min_scalar_dtype (-129) 0 = Int16
  /\ min_scalar_dtype 0 (2 ^ 32) = UInt64.
Proof. repeat split. Qed.

(** ** The container *)

Section Unfolding.

Context {E : External}.

Lemma save_jvol_unfold (array ijk_to_ras : ndarray) (path : Path) (block_size quality : Z) (fs : FS) :
  save_jvol array ijk_to_ras path block_size quality fs =
  match container_of array ijk_to_ras block_size quality with
  | OK d =>
      match os_open_wb path fs with
      | OK _ => (OK tt, <[path := NpzFile d]> fs)
      | Error e => (Error e, fs)
      end
  | Error e => (Error e, fs)
  end.
Proof.
  unfold save_jvol, container_of, bind, lift.
  destruct (get_quantization_table _ quality) as [qt|]; cbn [rbind]; [|reflexivity].
  destruct (array_min array) as [lo|]; cbn [rbind]; [|reflexivity].
  destruct (array_max array) as [hi|]; cbn [rbind]; [|reflexivity].
  destruct (encode_array array qt) as [[[[dv dc] av] ac]|]; cbn [rbind]; [|reflexivity].
  destruct (HuffmanCoding_from_rle av ac) as [h|]; cbn [rbind]; [|reflexivity].
  destruct (slice_rows 3 ijk_to_ras) as [rows|]; cbn [rbind]; [|reflexivity].
  destruct (np_array UInt16 _) as [shape_entry|]; cbn [rbind]; [|reflexivity].
  unfold open_wb, np_savez, FS, Path in *.
  destruct (os_open_wb path fs) as [[]|]; [|reflexivity].
  by rewrite insert_insert_eq.
Qed.

Lemma open_jvol_unfold (path : Path) (fs : FS) :
  open_jvol path fs =
  match fs !! path with
  | Some (NpzFile d) => (parse_container d, fs)
  | Some (RawFile bytes) => (Error (np_load_other bytes), fs)
  | None => (Error FileNotFoundError, fs)
  end.
Proof.
  unfold open_jvol, parse_container, bind, lift, np_load, ret.
  destruct (fs !! path) as [[d|]|]; [|reflexivity..].
  repeat match goal with
         | |- context [rbind ?r _] =>
             lazymatch r with
             | rbind _ _ => fail
             | _ => destruct r; cbn [rbind]; [|reflexivity]
             end
         end.
  reflexivity.
Qed.

(** A conversion that yields an array yields the reduced one. *)
Lemma np_array_ok (d : dtype) (t : list Z) (a : ndarray) :
  np_array d t = OK a -> a = array_of_ints d t.
Proof.
  unfold np_array. destruct (forallb (in_range d) t); [by intros [= <-]|].
  destruct np_wraps_out_of_range; [by intros [= <-] | discriminate].
Qed.

End Unfolding.

Section Container.

Context {E : External}.

Lemma archive_lookups rows qt dv dc dt lo sl shp h :
  let d := archive rows qt dv dc dt lo sl shp h in
  d !! "ijk_to_ras" = Some rows
  /\ d !! "quantization_block" = Some qt
  /\ d !! "dc_rle_values" = Some (to_min_scalar_type dv)
  /\ d !! "dc_rle_counts" = Some dc
  /\ d !! "dtype" = Some (empty0 dt)
  /\ d !! "intercept" = Some (asarray lo)
  /\ d !! "slope" = Some (asarray sl)
  /\ d !! "shape" = Some (array_of_ints UInt16 (map Z.of_N shp)).
Proof. repeat split; reflexivity. Qed.

Lemma archive_huffman_lookups rows qt dv dc dt lo sl shp h :
  let d := archive rows qt dv dc dt lo sl shp h in
  d !! "huffman_eof_symbol" = Some (HuffmanCoding.eof_symbol h)
  /\ d !! "huffman_symbols_values" = Some (HuffmanCoding.symbols_values h)
  /\ d !! "huffman_symbols_counts" = Some (HuffmanCoding.symbols_counts h)
  /\ d !! "huffman_bitsizes" = Some (HuffmanCoding.bitsizes h)
  /\ d !! "huffman_values" = Some (HuffmanCoding.values h)
  /\ d !! "huffman_data" = Some (HuffmanCoding.data h).
Proof. repeat split; reflexivity. Qed.

Lemma archive_ac_names_absent rows qt dv dc dt lo sl shp h :
  let d := archive rows qt dv dc dt lo sl shp h in
  d !! "ac_huffman_eof_symbol" = None
  /\ d !! "ac_huffman_symbols" = None
  /\ d !! "ac_huffman_bitsizes" = None
  /\ d !! "ac_huffman_values" = None
  /\ d !! "ac_huffman_data" = None.
Proof. repeat split; reflexivity. Qed.

Lemma archive_load_huffman rows qt dv dc dt lo sl shp h :
  load_huffman (archive rows qt dv dc dt lo sl shp h) = OK h.
Proof. destruct h. reflexivity. Qed.

Lemma archive_parse rows qt dv dc dt lo sl shp h :
  parse_container (archive rows qt dv dc dt lo sl shp h) =
  rbind (fill_ijk_to_ras rows) (fun ijk_to_ras =>
  rbind (decode_array (to_min_scalar_type dv) dc qt
           (array_of_ints UInt16 (map Z.of_N shp)) (asarray lo) (asarray sl) dt h)
        (fun array => OK (array, ijk_to_ras))).
Proof.
  unfold parse_container.
  change (getitem (archive rows qt dv dc dt lo sl shp h) (value IJK_TO_RAS)) with (OK rows).
  cbn [rbind]. destruct (fill_ijk_to_ras rows) as [T'|]; cbn [rbind]; [|reflexivity].
  change (getitem (archive rows qt dv dc dt lo sl shp h) (value QUANTIZATION_BLOCK)) with (OK qt).
  rewrite archive_load_huffman. reflexivity.
Qed.

(** What a successful [container_of] consists of. *)
Lemma container_of_ok array ijk_to_ras block_size quality d :
  container_of array ijk_to_ras block_size quality = OK d ->
  exists qt lo hi dv dc av ac h rows,
    get_quantization_table (block_size, block_size, block_size) quality = OK qt
    /\ array_min array = OK lo
    /\ array_max array = OK hi
    /\ encode_array array qt = OK (dv, dc, av, ac)
    /\ HuffmanCoding_from_rle av ac = OK h
    /\ slice_rows 3 ijk_to_ras = OK rows
    /\ d = archive rows qt dv dc (dtype_of array) lo (scalar_sub hi lo) (shape array) h.
Proof.
  unfold container_of.
  destruct (get_quantization_table _ quality) as [qt|] eqn:Hqt; cbn [rbind]; [|discriminate].
  destruct (array_min array) as [lo|] eqn:Hlo; cbn [rbind]; [|discriminate].
  destruct (array_max array) as [hi|] eqn:Hhi; cbn [rbind]; [|discriminate].
  destruct (encode_array array qt) as [[[[dv dc] av] ac]|] eqn:Henc; cbn [rbind]; [|discriminate].
  destruct (HuffmanCoding_from_rle av ac) as [h|] eqn:Hh; cbn [rbind]; [|discriminate].
  destruct (slice_rows 3 ijk_to_ras) as [rows|] eqn:Hrows; cbn [rbind]; [|discriminate].
  destruct (np_array UInt16 _) as [shape_entry|] eqn:Hentry; cbn [rbind]; [|discriminate].
  apply np_array_ok in Hentry as ->.
  intros [= <-]. exists qt, lo, hi, dv, dc, av, ac, h, rows. repeat split; assumption.
Qed.

(** A successful [save_jvol] leaves exactly the archive of [container_of]
    at the path and nothing else changes. *)
Lemma save_jvol_ok array ijk_to_ras path block_size quality fs fs' :
  save_jvol array ijk_to_ras path block_size quality fs = (OK tt, fs') ->
  exists d, container_of array ijk_to_ras block_size quality = OK d
            /\ fs' = <[path := NpzFile d]> fs
            /\ archive_at fs' path = Some d.
Proof.
  rewrite save_jvol_unfold.
  destruct (container_of array ijk_to_ras block_size quality) as [d|]; [|discriminate].
  destruct (os_open_wb path fs) as [[]|]; [|discriminate].
  intros [= <-]. exists d. repeat split.
  unfold archive_at, FS, Path in *. by rewrite lookup_insert_eq.
Qed.

End Container.

Section RoundTrip.

Context {E : External}.

Lemma wrap_uint16 (z : Z) : wrap UInt16 z = z mod 65536.
Proof. reflexivity. Qed.

Lemma wrap_uint16_small (n : N) : (n < 65536)%N -> wrap UInt16 (Z.of_N n) = Z.of_N n.
Proof. intros Hn. rewrite wrap_uint16. apply Z.mod_small. lia. Qed.

Lemma wrap_uint16_shape (shp : list N) :
  Forall (fun n => (n < 65536)%N) shp ->
  map (wrap UInt16) (map Z.of_N shp) = map Z.of_N shp.
Proof.
  induction 1 as [|n shp Hn _ IH]; [reflexivity|].
  cbn [map]. by rewrite IH, wrap_uint16_small.
Qed.


(** [decode_array] returns only arrays of the requested shape and dtype. *)
Lemma decode_array_ok dv dc qt target lo sl dt h a :
  decode_array dv dc qt target lo sl dt h = OK a ->
  exists rec, inverse_chain dv dc qt target lo sl h = OK rec
              /\ a = astype dt rec
              /\ map Z.of_N (shape a) = data target
              /\ dtype_of a = dt.
Proof.
  unfold decode_array.
  destruct (inverse_chain dv dc qt target lo sl h) as [rec|] eqn:Hrec; cbn [rbind]; [|discriminate].
  case_decide as Hshape; [|discriminate].
  intros [= <-]. exists rec. repeat split; assumption.
Qed.

(** [open_jvol] on what [save_jvol] wrote: the array it returns has the
    stored (16-bit) shape and the stored dtype, and the transform is the
    completion of the stored rows. *)
Lemma open_after_save_inv array ijk_to_ras path block_size quality fs fs' fs'' a T' :
  save_jvol array ijk_to_ras path block_size quality fs = (OK tt, fs') ->
  open_jvol path fs' = (OK (a, T'), fs'') ->
  map Z.of_N (shape a) = map (wrap UInt16) (map Z.of_N (shape array))
  /\ dtype_of a = dtype_of array
  /\ exists rows, slice_rows 3 ijk_to_ras = OK rows /\ fill_ijk_to_ras rows = OK T'.
Proof.
  intros Hsave Hopen.
  apply save_jvol_ok in Hsave as (d & Hd & -> & _).
  apply container_of_ok in Hd as (qt & lo & hi & dv & dc & av & ac & h & rows & _ & _ & _ & _ & _ & Hrows & ->).
  rewrite open_jvol_unfold in Hopen.
  unfold FS, Path in *. rewrite lookup_insert_eq in Hopen.
  rewrite archive_parse in Hopen.
  destruct (fill_ijk_to_ras rows) as [T''|] eqn:Hfill; cbn [rbind] in Hopen; [|discriminate].
  destruct (decode_array _ _ _ _ _ _ _ _) as [a'|] eqn:Hdec; cbn [rbind] in Hopen; [|discriminate].
  injection Hopen as <- <- _.
  apply decode_array_ok in Hdec as (rec & _ & _ & Hshape & Hdt).
  repeat split; [exact Hshape | exact Hdt | by exists rows].
Qed.

(** [fill_ijk_to_ras] on the first three rows of a [float64] 4x4 matrix. *)
Lemma fill_rows_of_4x4 (T : ndarray) :
  dtype_of T = Float64 -> shape T = [4%N; 4%N] ->
  exists rows, slice_rows 3 T = OK rows
               /\ fill_ijk_to_ras rows
                  = OK {| dtype_of := Float64; shape := [4%N; 4%N];
                          data := take 12 (data T) ++ map f64_of_int last_row |}.
Proof.
  intros Hdt Hshape. unfold slice_rows. rewrite Hshape. eexists. split; [reflexivity|].
  unfold fill_ijk_to_ras, vstack. cbn. rewrite Hdt.
  case_decide; [reflexivity | congruence].
Qed.

End RoundTrip.




Section Stored.

Context {E : External}.

(** The archive written by a successful [save_jvol], with the intermediate
    values it was built from. *)
Lemma save_jvol_archive array ijk_to_ras path block_size quality fs fs' :
  save_jvol array ijk_to_ras path block_size quality fs = (OK tt, fs') ->
  exists qt lo hi dv dc av ac h rows,
    get_quantization_table (block_size, block_size, block_size) quality = OK qt
    /\ array_min array = OK lo
    /\ array_max array = OK hi
    /\ encode_array array qt = OK (dv, dc, av, ac)
    /\ HuffmanCoding_from_rle av ac = OK h
    /\ slice_rows 3 ijk_to_ras = OK rows
    /\ fs' = <[path := NpzFile (archive rows qt dv dc (dtype_of array) lo
                                  (scalar_sub hi lo) (shape array) h)]> fs
    /\ archive_at fs' path
       = Some (archive rows qt dv dc (dtype_of array) lo (scalar_sub hi lo) (shape array) h).
Proof.
  intros Hsave. apply save_jvol_ok in Hsave as (d & Hd & Hfs & Hat).
  apply container_of_ok in Hd as (qt & lo & hi & dv & dc & av & ac & h & rows & H).
  destruct H as (Hqt & Hlo & Hhi & Henc & Hh & Hrows & ->).
  exists qt, lo, hi, dv, dc, av, ac, h, rows. repeat split; assumption.
Qed.

Lemma list_min_le (x : Z) (l : list Z) : list_min x l <= x.
Proof.
  revert x. induction l as [|y l IH]; intros x; cbn [list_min]; [lia|].
  specialize (IH (Z.min x y)). lia.
Qed.

(** [list_min x l] is the least element of [x :: l]. *)
Lemma list_min_spec (x : Z) (l : list Z) :
  In (list_min x l) (x :: l) /\ forall y, In y (x :: l) -> list_min x l <= y.
Proof.
  revert x. induction l as [|y l IH]; intros x; cbn [list_min].
  - split; [by left|]. intros y [<-|[]]. lia.
  - destruct (IH (Z.min x y)) as [Hin Hle]. split.
    + destruct Hin as [Heq|Hin]; [|by right; right].
      rewrite <- Heq. destruct (Z.min_spec x y) as [[_ ->]|[_ ->]]; [by left | by right; left].
    + intros z [<-|[<-|Hz]].
      * pose proof (list_min_le (Z.min x y) l). lia.
      * pose proof (list_min_le (Z.min x y) l). lia.
      * apply Hle. by right.
Qed.

Lemma list_max_ge (x : Z) (l : list Z) : x <= list_max x l.
Proof.
  revert x. induction l as [|y l IH]; intros x; cbn [list_max]; [lia|].
  specialize (IH (Z.max x y)). lia.
Qed.

(** [list_max x l] is the greatest element of [x :: l]. *)
Lemma list_max_spec (x : Z) (l : list Z) :
  In (list_max x l) (x :: l) /\ forall y, In y (x :: l) -> y <= list_max x l.
Proof.
  revert x. induction l as [|y l IH]; intros x; cbn [list_max].
  - split; [by left|]. intros y [<-|[]]. lia.
  - destruct (IH (Z.max x y)) as [Hin Hle]. split.
    + destruct Hin as [Heq|Hin]; [|by right; right].
      rewrite <- Heq. destruct (Z.max_spec x y) as [[_ ->]|[_ ->]]; [by right; left | by left].
    + intros z [<-|[<-|Hz]].
      * pose proof (list_max_ge (Z.max x y) l). lia.
      * pose proof (list_max_ge (Z.max x y) l). lia.
      * apply Hle. by right.
Qed.

(** Subtraction of integer scalars is exact when the difference is
    representable in their dtype. *)
Lemma scalar_sub_exact (d : dtype) (x y : Z) :
  is_float d = false -> in_range d (x - y) = true ->
  sval (scalar_sub {| sdtype := d; sval := x |} {| sdtype := d; sval := y |}) = x - y.
Proof.
  intros Hf Hr. unfold scalar_sub, wrap. cbn [sdtype sval]. rewrite Hf.
  unfold in_range, dtype_min, dtype_max in Hr.
  apply andb_true_iff in Hr as [Hlo Hhi].
  destruct d; try discriminate Hf; cbn in *; rewrite Z.mod_small; lia.
Qed.

End Stored.

(** C2 (as amended).  A successful [save_jvol] stores the six attributes of
    the Huffman object built from the encoder's AC run-length output under
    the member names [huffman_eof_symbol], [huffman_symbols_values],
    [huffman_symbols_counts], [huffman_bitsizes], [huffman_values] and
    [huffman_data]; [open_jvol] reads the archive back under those same
    names and rebuilds the same object. *)
Theorem huffman_fields_stored_and_read_back `{E : External}
    (array ijk_to_ras : ndarray) (path : Path) (block_size quality : Z) (fs fs' : FS) :
  save_jvol array ijk_to_ras path block_size quality fs = (OK tt, fs') ->
  exists d qt dv dc av ac h,
    archive_at fs' path = Some d
    /\ encode_array array qt = OK (dv, dc, av, ac)
    /\ HuffmanCoding_from_rle av ac = OK h
    /\ d !! "huffman_eof_symbol" = Some (HuffmanCoding.eof_symbol h)
    /\ d !! "huffman_symbols_values" = Some (HuffmanCoding.symbols_values h)
    /\ d !! "huffman_symbols_counts" = Some (HuffmanCoding.symbols_counts h)
    /\ d !! "huffman_bitsizes" = Some (HuffmanCoding.bitsizes h)
    /\ d !! "huffman_values" = Some (HuffmanCoding.values h)
    /\ d !! "huffman_data" = Some (HuffmanCoding.data h)
    /\ load_huffman d = OK h
    /\ open_jvol path fs' = (parse_container d, fs').
Proof.
  intros Hsave.
  apply save_jvol_archive in Hsave
    as (qt & lo & hi & dv & dc & av & ac & h & rows & _ & _ & _ & Henc & Hh & _ & Hfs & Hat).
  eexists _, qt, dv, dc, av, ac, h.
  split; [exact Hat|]. split; [exact Henc|]. split; [exact Hh|].
  destruct (archive_huffman_lookups rows qt dv dc (dtype_of array) lo
              (scalar_sub hi lo) (shape array) h) as (H1 & H2 & H3 & H4 & H5 & H6).
  do 6 (split; [assumption|]).
  split; [apply archive_load_huffman|].
  rewrite open_jvol_unfold, Hfs. unfold FS, Path in *. by rewrite lookup_insert_eq.
Qed.

(** C2, instance. *)
Lemma huffman_fields_stored_and_read_back_witness :
  exists d qt dv dc av ac h,
    archive_at (Fixture.sample_fs Fixture.volume_2x1x3) "scan.jvol" = Some d
    /\ encode_array (External := Fixture.externals) Fixture.volume_2x1x3 qt = OK (dv, dc, av, ac)
    /\ HuffmanCoding_from_rle (External := Fixture.externals) av ac = OK h
    /\ d !! "huffman_eof_symbol" = Some (HuffmanCoding.eof_symbol h)
    /\ d !! "huffman_symbols_values" = Some (HuffmanCoding.symbols_values h)
    /\ d !! "huffman_symbols_counts" = Some (HuffmanCoding.symbols_counts h)
    /\ d !! "huffman_bitsizes" = Some (HuffmanCoding.bitsizes h)
    /\ d !! "huffman_values" = Some (HuffmanCoding.values h)
    /\ d !! "huffman_data" = Some (HuffmanCoding.data h)
    /\ load_huffman d = OK h
    /\ open_jvol (E := Fixture.externals) "scan.jvol" (Fixture.sample_fs Fixture.volume_2x1x3)
       = (parse_container (E := Fixture.externals) d, Fixture.sample_fs Fixture.volume_2x1x3).
Proof.
  apply (huffman_fields_stored_and_read_back (E := Fixture.externals)
           Fixture.volume_2x1x3 Fixture.identity4 "scan.jvol" 4 60 ∅).
  reflexivity.
Defined.

(** C2 as stated fails: after saving the sample volume the archive has no
    member under any of the five [ac_huffman_*] names of the container
    table. *)
Lemma ac_huffman_names_not_in_archive :
  save_jvol (E := Fixture.externals) Fixture.volume_2x1x3 Fixture.identity4
    "scan.jvol" 4 60 ∅ = (OK tt, Fixture.sample_fs Fixture.volume_2x1x3)
  /\ archive_at (Fixture.sample_fs Fixture.volume_2x1x3) "scan.jvol"
     = Some (Fixture.sample_archive Fixture.volume_2x1x3)
  /\ Fixture.sample_archive Fixture.volume_2x1x3 !! "ac_huffman_eof_symbol" = None
  /\ Fixture.sample_archive Fixture.volume_2x1x3 !! "ac_huffman_symbols" = None
  /\ Fixture.sample_archive Fixture.volume_2x1x3 !! "ac_huffman_bitsizes" = None
  /\ Fixture.sample_archive Fixture.volume_2x1x3 !! "ac_huffman_values" = None
  /\ Fixture.sample_archive Fixture.volume_2x1x3 !! "ac_huffman_data" = None.
Proof. repeat split; reflexivity. Qed.

Section Narrowing.

(** The dtype chosen by [min_scalar_dtype] holds the whole range, provided
    some 64-bit integer dtype does. *)
Lemma min_scalar_dtype_fits (lo hi x : Z) :
  dtype_min Int64 <= lo -> hi <= dtype_max UInt64 ->
  (lo < 0 -> hi <= dtype_max Int64) ->
  lo <= x <= hi ->
  in_range (min_scalar_dtype lo hi) x = true.
Proof.
  intros Hlo Hhi Hsigned Hx. unfold min_scalar_dtype.
  repeat match goal with
         | |- context [if ?b then _ else _] => destruct b eqn:?
         end;
    unfold in_range; apply andb_true_iff; cbn in *; lia.
Qed.

(** No integer dtype that holds the range is narrower. *)
Lemma min_scalar_dtype_narrowest (lo hi : Z) (d : dtype) :
  is_float d = false -> lo <= hi ->
  in_range d lo = true -> in_range d hi = true ->
  bits (min_scalar_dtype lo hi) <= bits d.
Proof.
  intros Hf Hle Hrlo Hrhi. unfold in_range in *.
  apply andb_true_iff in Hrlo as [Hl1 Hl2]. apply andb_true_iff in Hrhi as [Hh1 Hh2].
  unfold min_scalar_dtype.
  destruct d; try discriminate Hf; cbn in Hl1, Hl2, Hh1, Hh2 |- *;
    repeat match goal with
           | |- context [if ?b then _ else _] => destruct b eqn:?
           end; cbn in *; lia.
Qed.

(** [to_min_scalar_type] keeps shape and values. *)
Lemma to_min_scalar_type_lossless (a : ndarray) :
  shape (to_min_scalar_type a) = shape a /\ data (to_min_scalar_type a) = data a.
Proof.
  unfold to_min_scalar_type. destruct (data a) eqn:Hd; [by rewrite Hd|].
  destruct (is_float (dtype_of a)); [by rewrite Hd|]. by cbn.
Qed.

End Narrowing.

(** C3.  [save_jvol] narrows the DC run-length values with
    [to_min_scalar_type] but stores the DC run-length counts exactly as the
    encoder returned them.  On the sample [int8] volume the counts [1; 1]
    are stored as [int64], where the narrowest dtype is [uint8]. *)
Theorem dc_counts_stored_as_encoded :
  (forall (E : External) array ijk_to_ras path block_size quality fs fs',
      save_jvol array ijk_to_ras path block_size quality fs = (OK tt, fs') ->
      exists d qt dv dc av ac,
        archive_at fs' path = Some d
        /\ encode_array array qt = OK (dv, dc, av, ac)
        /\ d !! "dc_rle_values" = Some (to_min_scalar_type dv)
        /\ d !! "dc_rle_counts" = Some dc)
  /\ (save_jvol (E := Fixture.externals) Fixture.volume_int8 Fixture.identity4
        "scan.jvol" 4 60 ∅ = (OK tt, Fixture.sample_fs Fixture.volume_int8)
      /\ archive_at (Fixture.sample_fs Fixture.volume_int8) "scan.jvol"
         = Some (Fixture.sample_archive Fixture.volume_int8)
      /\ Fixture.sample_archive Fixture.volume_int8 !! "dc_rle_counts"
         = Some {| dtype_of := Int64; shape := [2%N]; data := [1; 1] |}
      /\ to_min_scalar_type {| dtype_of := Int64; shape := [2%N]; data := [1; 1] |}
         = {| dtype_of := UInt8; shape := [2%N]; data := [1; 1] |}
      /\ Fixture.sample_archive Fixture.volume_int8 !! "dc_rle_values"
         = Some {| dtype_of := Int8; shape := [2%N]; data := [-128; 127] |}).
Proof.
  split.
  - intros E array ijk_to_ras path block_size quality fs fs' Hsave.
    apply save_jvol_archive in Hsave
      as (qt & lo & hi & dv & dc & av & ac & h & rows & _ & _ & _ & Henc & _ & _ & _ & Hat).
    eexists _, qt, dv, dc, av, ac.
    split; [exact Hat|]. split; [exact Henc|].
    destruct (archive_lookups rows qt dv dc (dtype_of array) lo
                (scalar_sub hi lo) (shape array) h) as (_ & _ & Hv & Hc & _).
    split; assumption.
  - repeat split; reflexivity.
Qed.

(** C7.  [save_jvol] stores the minimum as [intercept] and, as [slope],
    the difference of maximum and minimum computed in the array's own
    dtype.  For integer dtypes that difference is exact when it is
    representable and wraps around otherwise: on the sample [int8] volume
    with samples -128 and 127 the stored slope is -1, not 255. *)
Theorem slope_is_difference_in_dtype :
  (forall (E : External) array ijk_to_ras path block_size quality fs fs',
      save_jvol array ijk_to_ras path block_size quality fs = (OK tt, fs') ->
      exists d lo hi,
        archive_at fs' path = Some d
        /\ array_min array = OK lo
        /\ array_max array = OK hi
        /\ d !! "intercept" = Some (asarray lo)
        /\ d !! "slope" = Some (asarray (scalar_sub hi lo)))
  /\ (forall (E : External) array x l,
        is_float (dtype_of array) = false ->
        data array = x :: l ->
        array_min array = OK {| sdtype := dtype_of array; sval := list_min x l |}
        /\ array_max array = OK {| sdtype := dtype_of array; sval := list_max x l |}
        /\ (in_range (dtype_of array) (list_max x l - list_min x l) = true ->
            sval (scalar_sub {| sdtype := dtype_of array; sval := list_max x l |}
                             {| sdtype := dtype_of array; sval := list_min x l |})
            = list_max x l - list_min x l))
  /\ (save_jvol (E := Fixture.externals) Fixture.volume_int8 Fixture.identity4
        "scan.jvol" 4 60 ∅ = (OK tt, Fixture.sample_fs Fixture.volume_int8)
      /\ archive_at (Fixture.sample_fs Fixture.volume_int8) "scan.jvol"
         = Some (Fixture.sample_archive Fixture.volume_int8)
      /\ Fixture.sample_archive Fixture.volume_int8 !! "intercept"
         = Some {| dtype_of := Int8; shape := []; data := [-128] |}
      /\ Fixture.sample_archive Fixture.volume_int8 !! "slope"
         = Some {| dtype_of := Int8; shape := []; data := [-1] |}
      /\ 127 - -128 = 255).
Proof.
  split; [|split].
  - intros E array ijk_to_ras path block_size quality fs fs' Hsave.
    apply save_jvol_archive in Hsave
      as (qt & lo & hi & dv & dc & av & ac & h & rows & _ & Hlo & Hhi & _ & _ & _ & _ & Hat).
    eexists _, lo, hi.
    split; [exact Hat|]. split; [exact Hlo|]. split; [exact Hhi|].
    destruct (archive_lookups rows qt dv dc (dtype_of array) lo
                (scalar_sub hi lo) (shape array) h) as (_ & _ & _ & _ & _ & Hi & Hs & _).
    split; assumption.
  - intros E array x l Hf Hdata. unfold array_min, array_max. rewrite Hdata, Hf.
    split; [reflexivity|]. split; [reflexivity|].
    intros Hr. by apply scalar_sub_exact.
  - repeat split; reflexivity.
Qed.

(** C4.  With a quality outside [1,100] or a block size that is not
    positive, [save_jvol] raises at its first statement, whatever the
    array, and leaves the file system as it found it; nothing is clamped,
    for a call that succeeds had valid parameters.  More generally every
    exception [save_jvol] raises leaves the file system unchanged: the
    target is opened only after all stages have completed. *)
Theorem save_jvol_fails_before_writing `{E : External}
    (array ijk_to_ras : ndarray) (path : Path) (block_size quality : Z) (fs : FS) :
  (quality < 1 \/ 100 < quality \/ block_size <= 0 ->
   save_jvol array ijk_to_ras path block_size quality fs = (Error ValueError, fs))
  /\ (forall e fs',
        save_jvol array ijk_to_ras path block_size quality fs = (Error e, fs') -> fs' = fs)
  /\ (forall fs',
        save_jvol array ijk_to_ras path block_size quality fs = (OK tt, fs') ->
        1 <= quality <= 100 /\ 0 < block_size).
Proof.
  rewrite save_jvol_unfold. unfold container_of, get_quantization_table.
  split; [|split].
  - intros Hbad.
    destruct (negb ((1 <=? quality) && (quality <=? 100))) eqn:Hq; [reflexivity|].
    destruct (negb ((0 <? block_size) && (0 <? block_size) && (0 <? block_size))) eqn:Hb;
      [reflexivity|].
    apply negb_false_iff in Hq, Hb. lia.
  - intros e fs'.
    destruct (rbind _ _) as [d|e']; [|by intros [= _ <-]].
    destruct (os_open_wb path fs) as [[]|e']; [discriminate | by intros [= _ <-]].
  - intros fs'.
    destruct (negb ((1 <=? quality) && (quality <=? 100))) eqn:Hq; [discriminate|].
    destruct (negb ((0 <? block_size) && (0 <? block_size) && (0 <? block_size))) eqn:Hb;
      [discriminate|].
    intros _. apply negb_false_iff in Hq, Hb. lia.
Qed.

(** C4, instance: quality 101 on a file system that already holds
    [scan.jvol]. *)
Lemma save_jvol_fails_before_writing_witness :
  save_jvol (E := Fixture.externals) Fixture.volume_2x1x3 Fixture.identity4
    "scan.jvol" 4 101 (Fixture.sample_fs Fixture.volume_int8)
  = (Error ValueError, Fixture.sample_fs Fixture.volume_int8).
Proof.
  apply (proj1 (save_jvol_fails_before_writing (E := Fixture.externals)
                  Fixture.volume_2x1x3 Fixture.identity4 "scan.jvol" 4 101
                  (Fixture.sample_fs Fixture.volume_int8))).
  right. left. lia.
Defined.

Section Transform.

Context {E : External}.

Lemma fill_3x4 (M : ndarray) :
  dtype_of M = Float64 -> shape M = [3%N; 4%N] ->
  fill_ijk_to_ras M
  = OK {| dtype_of := Float64; shape := [4%N; 4%N];
          data := data M ++ map f64_of_int last_row |}.
Proof.
  intros Hdt Hshape. unfold fill_ijk_to_ras, vstack. rewrite Hshape, Hdt. cbn.
  case_decide; [reflexivity | congruence].
Qed.

End Transform.

(** C5.  [fill_ijk_to_ras] turns a [float64] 3x4 matrix into the 4x4
    matrix with the same first three rows and the last row [0, 0, 0, 1];
    hence the transform [open_jvol] returns for a file written by
    [save_jvol] from a 4x4 transform with that last row is the transform
    itself. *)
Theorem fill_ijk_to_ras_restores_transform `{E : External} :
  (forall M : ndarray,
      dtype_of M = Float64 -> shape M = [3%N; 4%N] -> wf M ->
      exists R,
        fill_ijk_to_ras M = OK R
        /\ dtype_of R = Float64
        /\ shape R = [4%N; 4%N]
        /\ slice_rows 3 R = OK M
        /\ drop 12 (data R) = [f64_of_int 0; f64_of_int 0; f64_of_int 0; f64_of_int 1])
  /\ (forall (T array : ndarray) path block_size quality fs fs' fs'' a T',
        dtype_of T = Float64 -> shape T = [4%N; 4%N] ->
        drop 12 (data T) = map f64_of_int last_row ->
        save_jvol array T path block_size quality fs = (OK tt, fs') ->
        open_jvol path fs' = (OK (a, T'), fs'') ->
        T' = T).
Proof.
  split.
  - intros [dt shp dat] Hdt Hshape Hwf. cbn in Hdt, Hshape. subst dt shp.
    unfold wf in Hwf. cbn in Hwf.
    assert (Hlen : length dat = 12%nat) by lia.
    eexists. split; [by apply fill_3x4|].
    split; [reflexivity|]. split; [reflexivity|]. split.
    + unfold slice_rows. cbn. by rewrite take_app_length'.
    + cbn [data]. by rewrite drop_app_length'.
  - intros T array path block_size quality fs fs' fs'' a T' Hdt Hshape Hlast Hsave Hopen.
    destruct (open_after_save_inv _ _ _ _ _ _ _ _ _ _ Hsave Hopen)
      as (_ & _ & rows & Hrows & Hfill).
    destruct (fill_rows_of_4x4 T Hdt Hshape) as (rows' & Hrows' & Hfill').
    rewrite Hrows in Hrows'. injection Hrows' as <-.
    rewrite Hfill in Hfill'. injection Hfill' as ->.
    destruct T as [dt shp dat]. cbn in *. subst dt shp.
    by rewrite <- Hlast, take_drop.
Qed.

(** C5, instance: the first three rows of the identity, and the identity
    transform through [save_jvol] and [open_jvol]. *)
Lemma fill_ijk_to_ras_restores_transform_witness :
  (exists R,
      fill_ijk_to_ras (E := Fixture.externals) Fixture.identity_rows = OK R
      /\ dtype_of R = Float64
      /\ shape R = [4%N; 4%N]
      /\ slice_rows 3 R = OK Fixture.identity_rows
      /\ drop 12 (data R) = [f64_of_int 0; f64_of_int 0; f64_of_int 0; f64_of_int 1])
  /\ (open_jvol (E := Fixture.externals) "scan.jvol" (Fixture.sample_fs Fixture.volume_2x1x3)
      = (OK (Fixture.volume_2x1x3, Fixture.identity4), Fixture.sample_fs Fixture.volume_2x1x3)
      /\ Fixture.identity4 = Fixture.identity4).
Proof.
  split.
  - apply (proj1 (fill_ijk_to_ras_restores_transform (E := Fixture.externals))
             Fixture.identity_rows); reflexivity.
  - split; [reflexivity|].
    apply (proj2 (fill_ijk_to_ras_restores_transform (E := Fixture.externals))
             Fixture.identity4 Fixture.volume_2x1x3 "scan.jvol" 4 60 ∅
             (Fixture.sample_fs Fixture.volume_2x1x3)
             (Fixture.sample_fs Fixture.volume_2x1x3)
             Fixture.volume_2x1x3 Fixture.identity4); reflexivity.
Defined.

Section Dispatch.

Context {E : External}.

Lemma save_jvol_kwargs_accepts (array ijk_to_ras : ndarray) (path : Path)
    (kwargs : gmap string Z) :
  dom kwargs ⊆ ({[ "block_size"; "quality" ]} : gset string) ->
  save_jvol_kwargs array ijk_to_ras path kwargs
  = save_jvol array ijk_to_ras path
      (default default_block_size (kwargs !! "block_size"))
      (default default_quality (kwargs !! "quality")).
Proof. intros Hdom. unfold save_jvol_kwargs. by rewrite bool_decide_eq_true_2. Qed.

Lemma save_jvol_kwargs_rejects (array ijk_to_ras : ndarray) (path : Path)
    (kwargs : gmap string Z) (k : string) :
  k ∈ dom kwargs -> k <> "block_size" -> k <> "quality" ->
  save_jvol_kwargs array ijk_to_ras path kwargs = raise TypeError.
Proof.
  intros Hk Hb Hq. unfold save_jvol_kwargs. rewrite bool_decide_eq_false_2; [reflexivity|].
  intros Hsub. pose proof (Hsub k Hk) as Hin.
  apply elem_of_union in Hin as [Hin|Hin]; apply elem_of_singleton in Hin; congruence.
Qed.

End Dispatch.

(** C6.  [open_image] and [save_image] look at nothing but [path.suffix]:
    either it is [".jvol"], and they are [open_jvol] and the call
    [save_jvol(array, ijk_to_ras, path, **kwargs)] (so [block_size] and
    [quality], when given, reach [save_jvol] as given); or it is anything
    else, and they are [open_itk_image] and [save_itk_image]. *)
Theorem image_io_dispatches_on_suffix `{E : External}
    (array ijk_to_ras : ndarray) (path : Path) (kwargs : gmap string Z) :
  (suffix path = ".jvol"
   /\ open_image path = open_jvol path
   /\ save_image array ijk_to_ras path kwargs = save_jvol_kwargs array ijk_to_ras path kwargs
   /\ (forall block_size quality,
         kwargs = <["block_size" := block_size]> {["quality" := quality]} ->
         save_image array ijk_to_ras path kwargs
         = save_jvol array ijk_to_ras path block_size quality))
  \/ (suffix path <> ".jvol"
      /\ open_image path = open_itk_image path
      /\ save_image array ijk_to_ras path kwargs = save_itk_image array ijk_to_ras path).
Proof.
  unfold open_image, save_image.
  destruct (String.eqb (suffix path) ".jvol") eqn:Hs.
  - apply String.eqb_eq in Hs. left. repeat split; [exact Hs|].
    intros block_size quality ->.
    rewrite save_jvol_kwargs_accepts.
    + by rewrite lookup_insert_eq, lookup_insert_ne, lookup_singleton_eq.
    + rewrite dom_insert_L, dom_singleton_L. set_solver.
  - apply String.eqb_neq in Hs. right. repeat split. exact Hs.
Qed.

(** C6, instance: [scan.jvol] with both tuning parameters goes to
    [save_jvol]. *)
Lemma image_io_dispatches_on_suffix_witness :
  save_image (E := Fixture.externals) Fixture.volume_2x1x3 Fixture.identity4 "scan.jvol"
    (<["block_size" := 2]> {["quality" := 75]})
  = save_jvol (E := Fixture.externals) Fixture.volume_2x1x3 Fixture.identity4 "scan.jvol" 2 75.
Proof.
  destruct (image_io_dispatches_on_suffix (E := Fixture.externals)
              Fixture.volume_2x1x3 Fixture.identity4 "scan.jvol"
              (<["block_size" := 2]> {["quality" := 75]}))
    as [(_ & _ & _ & H)|(Hne & _)].
  - apply H. reflexivity.
  - exfalso. apply Hne. reflexivity.
Defined.

(** C8.  [save_jvol] is called with [block_size] and [quality] and nothing
    else: left out, they are 4 and 60; any other keyword is a [TypeError];
    and the quantization table handed to the encoder and stored in the
    archive is the one of the cubic block shape
    [(block_size, block_size, block_size)] at that quality. *)
Theorem save_jvol_parameters_and_cubic_block `{E : External}
    (array ijk_to_ras : ndarray) (path : Path) (fs : FS) :
  save_jvol_kwargs array ijk_to_ras path ∅ = save_jvol array ijk_to_ras path 4 60
  /\ (forall b, save_jvol_kwargs array ijk_to_ras path {["block_size" := b]}
                = save_jvol array ijk_to_ras path b 60)
  /\ (forall q, save_jvol_kwargs array ijk_to_ras path {["quality" := q]}
                = save_jvol array ijk_to_ras path 4 q)
  /\ (forall b q, save_jvol_kwargs array ijk_to_ras path (<["block_size" := b]> {["quality" := q]})
                  = save_jvol array ijk_to_ras path b q)
  /\ (forall kwargs k,
        k ∈ dom kwargs -> k <> "block_size" -> k <> "quality" ->
        save_jvol_kwargs array ijk_to_ras path kwargs fs = (Error TypeError, fs))
  /\ (forall block_size quality fs',
        save_jvol array ijk_to_ras path block_size quality fs = (OK tt, fs') ->
        exists d qt encoded,
          archive_at fs' path = Some d
          /\ get_quantization_table (block_size, block_size, block_size) quality = OK qt
          /\ encode_array array qt = OK encoded
          /\ d !! "quantization_block" = Some qt).
Proof.
  split; [|split; [|split; [|split; [|split]]]].
  - rewrite save_jvol_kwargs_accepts; [reflexivity|]. rewrite dom_empty_L. set_solver.
  - intros b. rewrite save_jvol_kwargs_accepts.
    + by rewrite lookup_singleton_eq, lookup_singleton_ne.
    + rewrite dom_singleton_L. set_solver.
  - intros q. rewrite save_jvol_kwargs_accepts.
    + by rewrite lookup_singleton_eq, lookup_singleton_ne.
    + rewrite dom_singleton_L. set_solver.
  - intros b q. rewrite save_jvol_kwargs_accepts.
    + by rewrite lookup_insert_eq, lookup_insert_ne, lookup_singleton_eq.
    + rewrite dom_insert_L, dom_singleton_L. set_solver.
  - intros kwargs k Hk Hb Hq. by rewrite (save_jvol_kwargs_rejects _ _ _ _ k).
  - intros block_size quality fs' Hsave.
    apply save_jvol_archive in Hsave
      as (qt & lo & hi & dv & dc & av & ac & h & rows & Hqt & _ & _ & Henc & _ & _ & _ & Hat).
    eexists _, qt, _. split; [exact Hat|]. split; [exact Hqt|]. split; [exact Henc|].
    apply (archive_lookups rows qt dv dc (dtype_of array) lo (scalar_sub hi lo) (shape array) h).
Qed.

(** C8, instance: an unknown keyword is refused, and the stored table is
    the one of the 4x4x4 block at quality 60. *)
Lemma save_jvol_parameters_and_cubic_block_witness :
  save_jvol_kwargs (E := Fixture.externals) Fixture.volume_2x1x3 Fixture.identity4
    "scan.jvol" {["blocksize" := 8]} ∅ = (Error TypeError, ∅)
  /\ exists d qt encoded,
      archive_at (Fixture.sample_fs Fixture.volume_2x1x3) "scan.jvol" = Some d
      /\ get_quantization_table (E := Fixture.externals) (4, 4, 4) 60 = OK qt
      /\ encode_array (External := Fixture.externals) Fixture.volume_2x1x3 qt = OK encoded
      /\ d !! "quantization_block" = Some qt.
Proof.
  pose proof (save_jvol_parameters_and_cubic_block (E := Fixture.externals)
                Fixture.volume_2x1x3 Fixture.identity4 "scan.jvol" ∅)
    as (_ & _ & _ & _ & Hreject & Hcubic).
  split.
  - apply (Hreject {["blocksize" := 8]} "blocksize"); [|discriminate..].
    rewrite dom_singleton_L. set_solver.
  - apply (Hcubic 4 60). reflexivity.
Defined.

(** C9.  For a path whose suffix is not [".jvol"], [save_image] does the
    same for every choice of keyword arguments, namely what
    [save_itk_image] does; in particular keywords never make it raise. *)
Theorem save_image_ignores_kwargs_off_jvol `{E : External}
    (array ijk_to_ras : ndarray) (path : Path) (kwargs kwargs' : gmap string Z) (fs : FS) :
  suffix path <> ".jvol" ->
  save_image array ijk_to_ras path kwargs fs = save_image array ijk_to_ras path kwargs' fs
  /\ save_image array ijk_to_ras path kwargs fs = save_itk_image array ijk_to_ras path fs.
Proof.
  intros Hs. unfold save_image.
  destruct (String.eqb (suffix path) ".jvol") eqn:Heq; [|split; reflexivity].
  apply String.eqb_eq in Heq. contradiction.
Qed.

(** C9, instance: [scan.nii] with an out-of-range quality and an unknown
    keyword, against no keywords at all. *)
Lemma save_image_ignores_kwargs_off_jvol_witness :
  save_image (E := Fixture.externals) Fixture.volume_2x1x3 Fixture.identity4 "scan.nii"
    (<["quality" := 1000]> {["nonsense" := 0]}) ∅
  = save_image (E := Fixture.externals) Fixture.volume_2x1x3 Fixture.identity4 "scan.nii" ∅ ∅
  /\ save_image (E := Fixture.externals) Fixture.volume_2x1x3 Fixture.identity4 "scan.nii"
       (<["quality" := 1000]> {["nonsense" := 0]}) ∅
     = save_itk_image (E := Fixture.externals) Fixture.volume_2x1x3 Fixture.identity4
         "scan.nii" ∅.
Proof.
  apply (save_image_ignores_kwargs_off_jvol (E := Fixture.externals)).
  discriminate.
Defined.

Section ShapeConversion.

Context {E : External}.

Lemma fits_uint16 (shp : list N) :
  forallb (in_range UInt16) (map Z.of_N shp) = true
  <-> Forall (fun n => (n < 65536)%N) shp.
Proof.
  induction shp as [|n shp IH]; [by split; [constructor|]|].
  cbn [map forallb]. rewrite andb_true_iff, IH, Forall_cons.
  unfold in_range.
  change (dtype_min UInt16) with 0. change (dtype_max UInt16) with 65535.
  rewrite andb_true_iff, !Z.leb_le.
  split; intros [? ?]; (split; [lia | assumption]).
Qed.

(** [container_of] yields an archive only if the shape was converted. *)
Lemma container_of_converts array ijk_to_ras block_size quality d :
  container_of array ijk_to_ras block_size quality = OK d ->
  exists a, np_array UInt16 (map Z.of_N (shape array)) = OK a.
Proof.
  unfold container_of.
  destruct (get_quantization_table _ quality) as [qt|]; cbn [rbind]; [|discriminate].
  destruct (array_min array) as [lo|]; cbn [rbind]; [|discriminate].
  destruct (array_max array) as [hi|]; cbn [rbind]; [|discriminate].
  destruct (encode_array array qt) as [[[[dv dc] av] ac]|]; cbn [rbind]; [|discriminate].
  destruct (HuffmanCoding_from_rle av ac) as [h|]; cbn [rbind]; [|discriminate].
  destruct (slice_rows 3 ijk_to_ras) as [rows|]; cbn [rbind]; [|discriminate].
  destruct (np_array UInt16 _) as [a|]; cbn [rbind]; [|discriminate].
  intros _. by exists a.
Qed.

Lemma np_array_uint16_long (shp : list N) (a : ndarray) :
  ~ Forall (fun n => (n < 65536)%N) shp ->
  np_array UInt16 (map Z.of_N shp) = OK a ->
  np_wraps_out_of_range = true.
Proof.
  intros Hlong. unfold np_array.
  destruct (forallb (in_range UInt16) (map Z.of_N shp)) eqn:Hfit.
  - apply fits_uint16 in Hfit. contradiction.
  - destruct np_wraps_out_of_range; [reflexivity | discriminate].
Qed.

End ShapeConversion.

(** C10 (as amended).  [save_jvol] converts the shape to 16-bit unsigned
    integers before storing it.  When all axis lengths are below 65536 the
    stored shape is the true shape.  An axis length of 65536 or more is
    handled by numpy's conversion rule: where out-of-range integers are
    reduced (numpy 1.x) a successful [save_jvol] has stored that axis
    modulo 2^16, a different number, without any exception; where they
    raise (numpy 2) [save_jvol] raises and writes nothing. *)
Theorem stored_shape_is_uint16 `{E : External}
    (array ijk_to_ras : ndarray) (path : Path) (block_size quality : Z) (fs : FS) :
  (forall fs',
      save_jvol array ijk_to_ras path block_size quality fs = (OK tt, fs') ->
      exists d stored,
        archive_at fs' path = Some d
        /\ d !! "shape" = Some stored
        /\ dtype_of stored = UInt16
        /\ data stored = map (fun n => Z.of_N n mod 2 ^ 16) (shape array)
        /\ (Forall (fun n => (n < 65536)%N) (shape array) ->
            data stored = map Z.of_N (shape array))
        /\ (forall (i : nat) (n : N),
              shape array !! i = Some n -> (65536 <= n)%N ->
              np_wraps_out_of_range = true
              /\ data stored !! i = Some (Z.of_N n mod 2 ^ 16)
              /\ Z.of_N n mod 2 ^ 16 <> Z.of_N n))
  /\ (np_wraps_out_of_range = false ->
      ~ Forall (fun n => (n < 65536)%N) (shape array) ->
      exists e, save_jvol array ijk_to_ras path block_size quality fs = (Error e, fs)).
Proof.
  split.
  - intros fs' Hsave.
    pose proof Hsave as Hsave'.
    apply save_jvol_ok in Hsave' as (d0 & Hd0 & _ & _).
    apply container_of_converts in Hd0 as [a0 Ha0].
    apply save_jvol_archive in Hsave
      as (qt & lo & hi & dv & dc & av & ac & h & rows & _ & _ & _ & _ & _ & _ & _ & Hat).
    eexists _, (array_of_ints UInt16 (map Z.of_N (shape array))).
    split; [exact Hat|].
    split; [apply (archive_lookups rows qt dv dc (dtype_of array) lo
                     (scalar_sub hi lo) (shape array) h)|].
    split; [reflexivity|].
    assert (Hdata : data (array_of_ints UInt16 (map Z.of_N (shape array)))
                    = map (fun n => Z.of_N n mod 2 ^ 16) (shape array)).
    { cbn [array_of_ints data]. rewrite map_map. reflexivity. }
    split; [exact Hdata|]. split.
    + intros Hsmall. cbn [array_of_ints data]. by apply wrap_uint16_shape.
    + intros i n Hi Hn. rewrite Hdata. split; [|split].
      * apply (np_array_uint16_long (shape array) a0); [|exact Ha0].
        intros Hall. rewrite Forall_lookup in Hall. specialize (Hall i n Hi).
        cbn in Hall. lia.
      * by rewrite list_lookup_fmap, Hi.
      * pose proof (Z.mod_pos_bound (Z.of_N n) (2 ^ 16)). lia.
  - intros Hraise Hlong. rewrite save_jvol_unfold.
    destruct (container_of array ijk_to_ras block_size quality) as [d|e] eqn:Hd;
      [|by exists e].
    apply container_of_converts in Hd as [a Ha].
    apply np_array_uint16_long in Ha; [congruence | exact Hlong].
Qed.

(** C10, instance: with numpy 1.x the [65536x1x1] volume is saved without
    complaint and its shape is stored as [0, 1, 1]. *)
Lemma stored_shape_is_uint16_witness :
  exists d stored,
    archive_at (Fixture.sample_fs Fixture.volume_long) "scan.jvol" = Some d
    /\ d !! "shape" = Some stored
    /\ dtype_of stored = UInt16
    /\ data stored = [0; 1; 1].
Proof.
  destruct (proj1 (stored_shape_is_uint16 (E := Fixture.externals) Fixture.volume_long
                     Fixture.identity4 "scan.jvol" 4 60 ∅)
              (Fixture.sample_fs Fixture.volume_long))
    as (d & stored & Hat & Hshape & Hdt & Hdata & _).
  - reflexivity.
  - exists d, stored. repeat split; assumption.
Defined.

(** C10 as stated fails: with numpy 2 the [65536x1x1] volume is not stored
    with a reduced shape; [save_jvol] raises [OverflowError] and the file
    system stays empty. *)
Lemma numpy2_refuses_long_axis :
  save_jvol (E := Fixture.numpy2) Fixture.volume_long Fixture.identity4
    "scan.jvol" 4 60 ∅ = (Error OverflowError, ∅).
Proof. reflexivity. Qed.

(** ** Further properties of the container layer *)

(** X2.  [open_jvol] never changes the file system, whether it returns or
    raises. *)
Theorem open_jvol_reads_only `{E : External} (path : Path) (fs : FS) :
  snd (open_jvol path fs) = fs.
Proof.
  rewrite open_jvol_unfold. by destruct (fs !! path) as [[d|]|].
Qed.

(** X4.  When the quantization table is obtained, an array without
    elements makes [save_jvol] raise [ValueError] at [array.min()], before
    the encoder runs and before anything is written. *)
Theorem save_jvol_empty_array_raises `{E : External}
    (array ijk_to_ras qt : ndarray) (path : Path) (block_size quality : Z) (fs : FS) :
  data array = [] ->
  get_quantization_table (block_size, block_size, block_size) quality = OK qt ->
  save_jvol array ijk_to_ras path block_size quality fs = (Error ValueError, fs).
Proof.
  intros Hdata Hqt. rewrite save_jvol_unfold.
  unfold container_of, array_min. by rewrite Hqt, Hdata.
Qed.

(** X4, instance: a [0x4x4] volume. *)
Lemma save_jvol_empty_array_raises_witness :
  save_jvol (E := Fixture.externals)
    {| dtype_of := Int16; shape := [0%N; 4%N; 4%N]; data := [] |}
    Fixture.identity4 "scan.jvol" 4 60 ∅ = (Error ValueError, ∅).
Proof.
  apply (save_jvol_empty_array_raises (E := Fixture.externals) _ _
           (Fixture.divisors (4, 4, 4) 60)); reflexivity.
Defined.

(** ** The archive as a whole *)

Section Members.

Context {E : External}.

Lemma archive_dom rows qt dv dc dt lo sl shp h :
  dom (archive rows qt dv dc dt lo sl shp h) = list_to_set member_names.
Proof. unfold archive. by rewrite dom_list_to_map_L. Qed.

Lemma getitem_ok (d : gmap string ndarray) (k : string) (a : ndarray) :
  getitem d k = OK a -> d !! k = Some a.
Proof. unfold getitem. destruct (d !! k); [by intros [= ->] | discriminate]. Qed.

Lemma getitem_insert_ne (d : gmap string ndarray) (k k' : string) (v : ndarray) :
  k <> k' -> getitem (<[k := v]> d) k' = getitem d k'.
Proof. intros Hne. unfold getitem. by rewrite lookup_insert_ne. Qed.

Lemma load_huffman_ok (d : gmap string ndarray) (h : HuffmanCoding.t) :
  load_huffman d = OK h ->
  Forall (fun k => is_Some (d !! k))
    [ "huffman_data"; "huffman_symbols_values"; "huffman_symbols_counts";
      "huffman_bitsizes"; "huffman_values"; "huffman_eof_symbol" ].
Proof.
  unfold load_huffman.
  repeat match goal with
         | |- context [rbind (getitem d ?k) _] =>
             let H := fresh "H" in
             destruct (getitem d k) eqn:H; cbn [rbind]; [apply getitem_ok in H|discriminate]
         end.
  intros _. repeat constructor; eauto.
Qed.

End Members.

(** X5.  The archive a successful [save_jvol] leaves at the path has
    exactly the fourteen members of the dictionary literal, no more and no
    fewer; in particular nothing is stored under the declared keys
    [ac_rle_values] and [ac_rle_counts]. *)
Theorem save_jvol_writes_exactly_the_members `{E : External}
    (array ijk_to_ras : ndarray) (path : Path) (block_size quality : Z) (fs fs' : FS) :
  save_jvol array ijk_to_ras path block_size quality fs = (OK tt, fs') ->
  exists d,
    archive_at fs' path = Some d
    /\ (forall k, is_Some (d !! k) <-> k ∈ member_names)
    /\ d !! value AC_RLE_VALUES = None
    /\ d !! value AC_RLE_COUNTS = None.
Proof.
  intros Hsave.
  apply save_jvol_archive in Hsave
    as (qt & lo & hi & dv & dc & av & ac & h & rows & _ & _ & _ & _ & _ & _ & _ & Hat).
  eexists. split; [exact Hat|].
  assert (Hdom : forall k, is_Some (archive rows qt dv dc (dtype_of array) lo
                     (scalar_sub hi lo) (shape array) h !! k) <-> k ∈ member_names).
  { intros k. rewrite <- elem_of_dom, archive_dom. apply elem_of_list_to_set. }
  split; [exact Hdom|].
  split; apply eq_None_not_Some; rewrite Hdom; unfold member_names; cbn;
    rewrite !elem_of_cons, elem_of_nil; intros H; repeat destruct H as [H|H]; discriminate || done.
Qed.

(** X6.  [open_jvol] returns only for a path that holds an archive with
    all fourteen members. *)
Theorem open_jvol_requires_every_member `{E : External}
    (path : Path) (fs fs' : FS) (r : ndarray * ndarray) :
  open_jvol path fs = (OK r, fs') ->
  exists d, archive_at fs path = Some d
            /\ Forall (fun k => is_Some (d !! k)) member_names.
Proof.
  rewrite open_jvol_unfold. unfold archive_at.
  destruct (fs !! path) as [[d|]|]; [|discriminate..].
  intros [= Hparse _]. exists d. split; [reflexivity|].
  unfold parse_container in Hparse.
  destruct (getitem d (value IJK_TO_RAS)) as [x1|] eqn:H1; cbn [rbind] in Hparse; [|discriminate].
  destruct (fill_ijk_to_ras x1) as [T'|]; cbn [rbind] in Hparse; [|discriminate].
  destruct (getitem d (value QUANTIZATION_BLOCK)) as [x2|] eqn:H2; cbn [rbind] in Hparse; [|discriminate].
  destruct (load_huffman d) as [h|] eqn:Hh; cbn [rbind] in Hparse; [|discriminate].
  destruct (getitem d (value DC_RLE_VALUES)) as [x3|] eqn:H3; cbn [rbind] in Hparse; [|discriminate].
  destruct (getitem d (value DC_RLE_COUNTS)) as [x4|] eqn:H4; cbn [rbind] in Hparse; [|discriminate].
  destruct (getitem d (value SHAPE)) as [x5|] eqn:H5; cbn [rbind] in Hparse; [|discriminate].
  destruct (getitem d (value INTERCEPT)) as [x6|] eqn:H6; cbn [rbind] in Hparse; [|discriminate].
  destruct (getitem d (value SLOPE)) as [x7|] eqn:H7; cbn [rbind] in Hparse; [|discriminate].
  destruct (getitem d (value DTYPE)) as [x8|] eqn:H8; cbn [rbind] in Hparse; [|discriminate].
  apply getitem_ok in H1, H2, H3, H4, H5, H6, H7, H8. cbn [value] in *.
  apply load_huffman_ok in Hh.
  repeat match type of Hh with Forall _ (_ :: _) => apply Forall_cons in Hh as [? Hh] end.
  unfold member_names. repeat constructor; eauto.
Qed.

(** X5, instance: the archive of the sample volume. *)
Lemma save_jvol_writes_exactly_the_members_witness :
  exists d,
    archive_at (Fixture.sample_fs Fixture.volume_2x1x3) "scan.jvol" = Some d
    /\ (forall k, is_Some (d !! k) <-> k ∈ member_names)
    /\ d !! value AC_RLE_VALUES = None
    /\ d !! value AC_RLE_COUNTS = None.
Proof.
  apply (save_jvol_writes_exactly_the_members (E := Fixture.externals)
           Fixture.volume_2x1x3 Fixture.identity4 "scan.jvol" 4 60 ∅).
  reflexivity.
Defined.

(** X6, instance: the archive of the sample volume is opened. *)
Lemma open_jvol_requires_every_member_witness :
  exists d, archive_at (Fixture.sample_fs Fixture.volume_2x1x3) "scan.jvol" = Some d
            /\ Forall (fun k => is_Some (d !! k)) member_names.
Proof.
  apply (open_jvol_requires_every_member (E := Fixture.externals) "scan.jvol"
           (Fixture.sample_fs Fixture.volume_2x1x3) (Fixture.sample_fs Fixture.volume_2x1x3)
           (Fixture.volume_2x1x3, Fixture.identity4)).
  reflexivity.
Defined.

(** X7.  [open_jvol] reads the fourteen members and nothing else: adding,
    replacing or deleting any other member of the archive changes neither
    what it returns nor what it raises. *)
Theorem open_jvol_ignores_other_members `{E : External}
    (path : Path) (fs : FS) (d : gmap string ndarray) (k : string) (v : ndarray) :
  k ∉ member_names ->
  fst (open_jvol path (<[path := NpzFile (<[k := v]> d)]> fs))
  = fst (open_jvol path (<[path := NpzFile d]> fs))
  /\ fst (open_jvol path (<[path := NpzFile (delete k d)]> fs))
     = fst (open_jvol path (<[path := NpzFile d]> fs)).
Proof.
  intros Hk.
  assert (Hne : Forall (fun k' => k <> k') member_names).
  { apply Forall_forall. intros k' Hk' ->. contradiction. }
  unfold member_names in Hne.
  repeat match type of Hne with Forall _ (_ :: _) => apply Forall_cons in Hne as [? Hne] end.
  rewrite !open_jvol_unfold. unfold FS, Path in *. rewrite !lookup_insert_eq. cbn [fst].
  unfold parse_container, load_huffman, getitem. cbn [value].
  split.
  - by rewrite !lookup_insert_ne.
  - by rewrite !lookup_delete_ne.
Qed.

(** X7, instance: an added member [comment]. *)
Lemma open_jvol_ignores_other_members_witness :
  fst (open_jvol (E := Fixture.externals) "scan.jvol"
         (<["scan.jvol" := NpzFile (<["comment" := Fixture.identity4]>
                                      (Fixture.sample_archive Fixture.volume_2x1x3))]> ∅))
  = fst (open_jvol (E := Fixture.externals) "scan.jvol"
           (<["scan.jvol" := NpzFile (Fixture.sample_archive Fixture.volume_2x1x3)]> ∅)).
Proof.
  apply (open_jvol_ignores_other_members (E := Fixture.externals)).
  unfold member_names. rewrite !elem_of_cons, elem_of_nil.
  intros H. repeat destruct H as [H|H]; discriminate || done.
Defined.

Section TransformShapes.

Context {E : External}.

Lemma slice_rows_shape (n : N) (T rows : ndarray) :
  slice_rows n T = OK rows ->
  exists r rest, shape T = r :: rest
                 /\ dtype_of rows = dtype_of T
                 /\ shape rows = N.min n r :: rest
                 /\ data rows = take (N.to_nat (N.min n r * size_of rest)) (data T).
Proof.
  unfold slice_rows. destruct (shape T) as [|r rest]; [discriminate|].
  intros [= <-]. by exists r, rest.
Qed.

Lemma fill_float64_cases (M : ndarray) :
  dtype_of M = Float64 ->
  ((shape M = [4%N] \/ exists r, shape M = [r; 4%N])
   /\ exists R, fill_ijk_to_ras M = OK R
                /\ dtype_of R = Float64
                /\ shape R = [(if decide (shape M = [4%N]) then 2 else hd 0 (shape M) + 1)%N; 4%N]
                /\ data R = (data M ++ map f64_of_int last_row)%list)
  \/ (shape M <> [4%N] /\ (forall r, shape M <> [r; 4%N])
      /\ fill_ijk_to_ras M = Error ValueError).
Proof.
  intros Hdt. unfold fill_ijk_to_ras, vstack. rewrite Hdt, decide_True by reflexivity.
  change (N.of_nat (length last_row)) with 4%N.
  destruct (shape M) as [|c [|c' [|x rest]]].
  - right. repeat split; congruence.
  - destruct (N.eqb_spec c 4) as [->|Hne].
    + left. split; [by left|]. eexists. split; [reflexivity|]. by rewrite decide_True.
    + right. split; [|split; [|reflexivity]]; intros; congruence.
  - destruct (N.eqb_spec c' 4) as [->|Hne].
    + left. split; [right; by exists c|]. eexists. split; [reflexivity|].
      by rewrite decide_False.
    + right. split; [|split; [|reflexivity]]; intros; congruence.
  - right. repeat split; congruence.
Qed.

End TransformShapes.

(** X12.  On a [float64] array [fill_ijk_to_ras] appends the row
    [0, 0, 0, 1] whenever the array has four columns, whatever its number
    of rows (a vector of four becomes 2x4), and raises [ValueError] for
    every other shape. *)
Theorem fill_ijk_to_ras_float64 `{E : External} (M : ndarray) :
  dtype_of M = Float64 ->
  (forall r, shape M = [r; 4%N] ->
             fill_ijk_to_ras M
             = OK {| dtype_of := Float64; shape := [(r + 1)%N; 4%N];
                     data := data M ++ map f64_of_int last_row |})
  /\ (shape M = [4%N] ->
      fill_ijk_to_ras M
      = OK {| dtype_of := Float64; shape := [2%N; 4%N];
              data := data M ++ map f64_of_int last_row |})
  /\ (shape M <> [4%N] -> (forall r, shape M <> [r; 4%N]) ->
      fill_ijk_to_ras M = Error ValueError).
Proof.
  intros Hdt. split; [|split].
  - intros r Hs. unfold fill_ijk_to_ras, vstack.
    by rewrite Hdt, decide_True, Hs by reflexivity.
  - intros Hs. unfold fill_ijk_to_ras, vstack.
    by rewrite Hdt, decide_True, Hs by reflexivity.
  - intros H1 H2. destruct (fill_float64_cases M Hdt) as [[[Hs|[r Hs]] _]|(_ & _ & Herr)].
    + contradiction.
    + by destruct (H2 r).
    + exact Herr.
Qed.

(** X12, instance: a 2x2 matrix is refused. *)
Lemma fill_ijk_to_ras_float64_witness :
  fill_ijk_to_ras (E := Fixture.externals)
    {| dtype_of := Float64; shape := [2%N; 2%N]; data := map f64_of_int [1; 0; 0; 1] |}
  = Error ValueError.
Proof.
  apply (fill_ijk_to_ras_float64 (E := Fixture.externals)); [reflexivity|discriminate|].
  intros r. discriminate.
Defined.

(** X11.  [save_jvol] does not look at the shape of the transform, but
    [open_jvol] does: a file saved with a [float64] transform that is not
    a matrix of four columns can never be reopened, [open_jvol] raises
    [ValueError] on it. *)
Theorem save_jvol_accepts_transform_open_jvol_rejects `{E : External}
    (array T : ndarray) (path : Path) (block_size quality : Z) (fs fs' : FS) :
  dtype_of T = Float64 ->
  (forall r, shape T <> [r; 4%N]) ->
  save_jvol array T path block_size quality fs = (OK tt, fs') ->
  open_jvol path fs' = (Error ValueError, fs').
Proof.
  intros Hdt Hshape Hsave.
  apply save_jvol_archive in Hsave
    as (qt & lo & hi & dv & dc & av & ac & h & rows & _ & _ & _ & _ & _ & Hrows & -> & _).
  rewrite open_jvol_unfold. unfold FS, Path in *. rewrite lookup_insert_eq, archive_parse.
  apply slice_rows_shape in Hrows as (r & rest & HsT & Hdr & Hsr & _).
  rewrite Hdt in Hdr.
  destruct (fill_float64_cases rows Hdr) as [[[Hs|[r' Hs]] _]|(_ & _ & ->)].
  - rewrite Hsr in Hs. injection Hs as Hmin _. lia.
  - rewrite Hsr in Hs. injection Hs as _ ->. by destruct (Hshape r).
  - reflexivity.
Qed.

(** X11, instance: a 3x3 transform is saved and the file is refused. *)
Lemma save_jvol_accepts_transform_open_jvol_rejects_witness :
  open_jvol (E := Fixture.externals) "scan.jvol"
    (snd (save_jvol (E := Fixture.externals) Fixture.volume_2x1x3
            {| dtype_of := Float64; shape := [3%N; 3%N];
               data := map f64_of_int [1; 0; 0; 0; 1; 0; 0; 0; 1] |}
            "scan.jvol" 4 60 ∅))
  = (Error ValueError,
     snd (save_jvol (E := Fixture.externals) Fixture.volume_2x1x3
            {| dtype_of := Float64; shape := [3%N; 3%N];
               data := map f64_of_int [1; 0; 0; 0; 1; 0; 0; 0; 1] |}
            "scan.jvol" 4 60 ∅)).
Proof.
  apply (save_jvol_accepts_transform_open_jvol_rejects (E := Fixture.externals)
           Fixture.volume_2x1x3
           {| dtype_of := Float64; shape := [3%N; 3%N];
              data := map f64_of_int [1; 0; 0; 0; 1; 0; 0; 0; 1] |}
           "scan.jvol" 4 60 ∅).
  - reflexivity.
  - intros r. discriminate.
  - reflexivity.
Defined.

(** X10.  For a [float64] transform with [r] rows of four columns, the
    transform [open_jvol] returns after [save_jvol] is its first
    [min 3 r] rows followed by [0, 0, 0, 1].  It is the transform that
    was saved exactly when that one is 4x4 with last row [0, 0, 0, 1]:
    any other last row, and any row beyond the third, is lost. *)
Theorem returned_transform_is_three_rows_and_last_row `{E : External}
    (array T : ndarray) (r : N) (path : Path) (block_size quality : Z)
    (fs fs' fs'' : FS) (a T' : ndarray) :
  dtype_of T = Float64 ->
  shape T = [r; 4%N] ->
  save_jvol array T path block_size quality fs = (OK tt, fs') ->
  open_jvol path fs' = (OK (a, T'), fs'') ->
  T' = {| dtype_of := Float64;
          shape := [(N.min 3 r + 1)%N; 4%N];
          data := take (N.to_nat (N.min 3 r * 4)) (data T) ++ map f64_of_int last_row |}
  /\ (T' = T <-> r = 4%N /\ drop 12 (data T) = map f64_of_int last_row).
Proof.
  intros Hdt Hshape Hsave Hopen.
  destruct (open_after_save_inv _ _ _ _ _ _ _ _ _ _ Hsave Hopen)
    as (_ & _ & rows & Hrows & Hfill).
  apply slice_rows_shape in Hrows as (r0 & rest & HsT & Hdr & Hsr & Hdata).
  rewrite Hshape in HsT. injection HsT as <- <-. rewrite Hdt in Hdr.
  assert (HT' : T' = {| dtype_of := Float64;
                        shape := [(N.min 3 r + 1)%N; 4%N];
                        data := take (N.to_nat (N.min 3 r * 4)) (data T)
                                ++ map f64_of_int last_row |}).
  { unfold fill_ijk_to_ras, vstack in Hfill.
    rewrite Hdr, decide_True, Hsr in Hfill by reflexivity.
    change (N.of_nat (length last_row)) with 4%N in Hfill.
    rewrite N.eqb_refl in Hfill. injection Hfill as <-.
    rewrite Hdata. cbn [size_of fold_right]. by rewrite N.mul_1_r. }
  split; [exact HT'|].
  destruct T as [dt shp dat]. cbn [dtype_of shape data] in *. subst dt shp T'.
  split.
  - intros [= Hr Hd].
    assert (r = 4%N) as -> by (destruct (N.min_spec 3 r) as [[? Hm]|[? Hm]]; rewrite Hm in Hr; lia).
    split; [reflexivity|].
    change (N.to_nat (N.min 3 4 * 4)) with 12%nat in Hd.
    destruct (decide (12 <= length dat)%nat) as [Hlen|Hlen].
    + rewrite <- Hd at 1. rewrite drop_app_length'; [reflexivity|].
      rewrite length_take. lia.
    + apply (f_equal length) in Hd. rewrite length_app, length_take in Hd.
      cbn [length] in Hd. lia.
  - intros [-> Hd]. change (N.to_nat (N.min 3 4 * 4)) with 12%nat.
    by rewrite <- Hd, take_drop.
Qed.

(** X10, instance: a 4x4 transform with last row [0, 0, 0, 2] comes back
    as the identity. *)
Lemma returned_transform_is_three_rows_and_last_row_witness :
  Fixture.identity4
  = {| dtype_of := Float64;
       shape := [(N.min 3 4 + 1)%N; 4%N];
       data := take (N.to_nat (N.min 3 4 * 4)) (data Samples.scaled4)
               ++ map f64_of_int last_row |}
  /\ (Fixture.identity4 = Samples.scaled4
      <-> 4%N = 4%N /\ drop 12 (data Samples.scaled4) = map f64_of_int last_row).
Proof.
  apply (returned_transform_is_three_rows_and_last_row (E := Fixture.externals)
           Fixture.volume_2x1x3 Samples.scaled4 4 "scan.jvol" 4 60 ∅
           (Fixture.sample_fs Fixture.volume_2x1x3) (Fixture.sample_fs Fixture.volume_2x1x3)
           Fixture.volume_2x1x3 Fixture.identity4); reflexivity.
Defined.

(** X15.  [open_jvol] on a file written by [save_jvol] completes the
    stored rows of the transform and then calls [decode_array] with
    exactly what [save_jvol] computed: the narrowed DC values, the DC
    counts, the quantization table, the 16-bit shape, the intercept, the
    slope, the dtype of the array and the Huffman object. *)
Theorem open_jvol_decodes_what_save_jvol_computed `{E : External}
    (array ijk_to_ras : ndarray) (path : Path) (block_size quality : Z) (fs fs' : FS) :
  save_jvol array ijk_to_ras path block_size quality fs = (OK tt, fs') ->
  exists qt lo hi dv dc av ac h rows,
    get_quantization_table (block_size, block_size, block_size) quality = OK qt
    /\ array_min array = OK lo
    /\ array_max array = OK hi
    /\ encode_array array qt = OK (dv, dc, av, ac)
    /\ HuffmanCoding_from_rle av ac = OK h
    /\ slice_rows 3 ijk_to_ras = OK rows
    /\ open_jvol path fs'
       = (rbind (fill_ijk_to_ras rows) (fun T' =>
          rbind (decode_array (to_min_scalar_type dv) dc qt
                   (array_of_ints UInt16 (map Z.of_N (shape array)))
                   (asarray lo) (asarray (scalar_sub hi lo)) (dtype_of array) h)
                (fun a => OK (a, T'))),
          fs').
Proof.
  intros Hsave.
  apply save_jvol_archive in Hsave
    as (qt & lo & hi & dv & dc & av & ac & h & rows & Hqt & Hlo & Hhi & Henc & Hh & Hrows & -> & _).
  exists qt, lo, hi, dv, dc, av, ac, h, rows.
  do 6 (split; [assumption|]).
  rewrite open_jvol_unfold. unfold FS, Path in *. by rewrite lookup_insert_eq, archive_parse.
Qed.

Section Paths.

Lemma append_cons (c : ascii) (s t : string) :
  String.append (String c s) t = String c (String.append s t).
Proof. reflexivity. Qed.

Lemma append_nil_l (t : string) : String.append "" t = t.
Proof. reflexivity. Qed.

Lemma append_nil_r (s : string) : String.append s "" = s.
Proof. induction s as [|c s IH]; [reflexivity | by rewrite append_cons, IH]. Qed.

Lemma append_assoc (s t u : string) :
  String.append (String.append s t) u = String.append s (String.append t u).
Proof. induction s as [|c s IH]; [reflexivity | by rewrite !append_cons, IH]. Qed.

Lemma split_parts_no_slash (f cur : string) :
  no_slash f = true -> split_parts f cur = [String.append cur f].
Proof.
  revert cur. induction f as [|c f IH]; intros cur Hf; cbn [split_parts].
  - by rewrite append_nil_r.
  - cbn [no_slash] in Hf. apply andb_true_iff in Hf as [Hc Hf].
    apply negb_true_iff in Hc. rewrite Hc, IH by exact Hf.
    by rewrite append_assoc.
Qed.

Lemma split_parts_app_slash (s f cur : string) :
  no_slash f = true ->
  split_parts (String.append s (String slash f)) cur = (split_parts s cur ++ [f])%list.
Proof.
  intros Hf. revert cur. induction s as [|c s IH]; intros cur.
  - rewrite append_nil_l. cbn [split_parts].
    change (Ascii.eqb slash slash) with true. cbv iota.
    by rewrite split_parts_no_slash.
  - rewrite append_cons. cbn [split_parts].
    destruct (Ascii.eqb c slash); by rewrite IH.
Qed.



Lemma name_of_dir_only (dir f : string) :
  no_slash f = true -> f = "" \/ f = "." ->
  name (String.append dir (String slash f)) = name dir.
Proof.
  intros Hf H. unfold name, parts. rewrite split_parts_app_slash by exact Hf.
  rewrite filter_app, filter_cons_False by (destruct H; subst; tauto).
  by rewrite app_nil_r.
Qed.










End Paths.




Section Transposition.

Local Open Scope nat_scope.

Lemma in_indices (s I : list nat) : In I (indices s) <-> Forall2 lt I s.
Proof.
  revert I. induction s as [|n s IH]; intros I; cbn [indices].
  - split.
    + intros [<-|[]]. constructor.
    + intros H. inversion H. by left.
  - rewrite in_flat_map. split.
    + intros (i & Hi & HI). apply in_map_iff in HI as (J & <- & HJ).
      apply in_seq in Hi. constructor; [lia | by apply IH].
    + intros H. inversion H as [|i n' J s' Hlt HJ]; subst.
      exists i. split; [apply in_seq; lia|].
      apply in_map_iff. exists J. split; [reflexivity | by apply IH].
Qed.

Lemma in_indices_rev (s I : list nat) :
  In I (indices s) -> In (rev I) (indices (rev s)).
Proof.
  rewrite !in_indices. intros H. apply Forall2_reverse in H.
  unfold reverse in H. by rewrite <- !rev_alt in H.
Qed.

Lemma in_indices_length (s I : list nat) : In I (indices s) -> length I = length s.
Proof. rewrite in_indices. apply Forall2_length. Qed.

Lemma offset_from (s I : list nat) (acc : nat) :
  length I = length s ->
  fold_left (fun acc p => acc * fst p + snd p) (combine s I) acc
  = acc * prod_nat s + offset s I.
Proof.
  unfold offset. revert I acc. induction s as [|n s IH]; intros [|i I] acc Hlen;
    try discriminate Hlen; cbn [combine fold_left prod_nat fold_right fst snd].
  - lia.
  - injection Hlen as Hlen. fold (prod_nat s).
    rewrite (IH I (acc * n + i) Hlen), (IH I (0 * n + i) Hlen). nia.
Qed.

Lemma offset_cons (n i : nat) (s I : list nat) :
  length I = length s ->
  offset (n :: s) (i :: I) = i * prod_nat s + offset s I.
Proof.
  intros Hlen. unfold offset at 1. cbn [combine fold_left fst snd].
  by rewrite offset_from.
Qed.

Lemma flat_map_seq_blocks (n m : nat) :
  flat_map (fun i => seq (i * m) m) (seq 0 n) = seq 0 (n * m).
Proof.
  induction n as [|n IH]; [reflexivity|].
  rewrite seq_S, flat_map_app, IH. cbn [flat_map Nat.add]. rewrite app_nil_r.
  replace (S n * m) with (n * m + m) by lia. by rewrite seq_app.
Qed.

Lemma map_flat_map {A B C : Type} (g : B -> C) (f : A -> list B) (l : list A) :
  map g (flat_map f l) = flat_map (fun x => map g (f x)) l.
Proof.
  induction l as [|x l IH]; [reflexivity|].
  cbn [flat_map]. by rewrite map_app, IH.
Qed.

Lemma map_add_seq (a m : nat) : map (fun k => a + k) (seq 0 m) = seq a m.
Proof.
  revert a. induction m as [|m IH]; intros a; [reflexivity|].
  cbn [seq map]. rewrite <- seq_shift, map_map. f_equal; [lia|].
  rewrite <- (IH (S a)). apply map_ext. intros k. lia.
Qed.

(** The multi-indices of a shape come in the order of their offsets. *)
Lemma map_offset_indices (s : list nat) :
  map (offset s) (indices s) = seq 0 (prod_nat s).
Proof.
  induction s as [|n s IH]; [reflexivity|].
  cbn [indices prod_nat fold_right]. fold (prod_nat s).
  rewrite map_flat_map.
  rewrite <- flat_map_seq_blocks.
  apply flat_map_ext. intros i.
  rewrite map_map.
  rewrite <- map_add_seq, <- IH, map_map.
  apply map_ext_in. intros I HI. apply offset_cons. by apply in_indices_length.
Qed.

Lemma length_indices (s : list nat) : length (indices s) = prod_nat s.
Proof. by rewrite <- (length_map (offset s)), map_offset_indices, length_seq. Qed.

Lemma nth_offset_indices (s I : list nat) :
  In I (indices s) ->
  offset s I < prod_nat s /\ nth (offset s I) (indices s) [] = I.
Proof.
  intros HI. destruct (In_nth _ _ [] HI) as (j & Hj & Hnth).
  assert (Hoff : offset s I = j).
  { rewrite <- Hnth.
    rewrite <- (map_nth (offset s)), map_offset_indices.
    rewrite (nth_indep _ _ 0) by (rewrite length_seq, <- length_indices; exact Hj).
    rewrite seq_nth by (rewrite <- length_indices; exact Hj). reflexivity. }
  rewrite Hoff. split; [by rewrite <- length_indices|exact Hnth].
Qed.

Lemma map_nth_seq {A : Type} (l : list A) (d : A) :
  map (fun k => nth k l d) (seq 0 (length l)) = l.
Proof.
  induction l as [|x l IH]; [reflexivity|].
  cbn [length seq map nth]. f_equal.
  rewrite <- seq_shift, map_map. exact IH.
Qed.

Lemma prod_nat_to_nat (shp : list N) :
  prod_nat (map N.to_nat shp) = N.to_nat (size_of shp).
Proof.
  induction shp as [|n shp IH]; [reflexivity|].
  cbn [map prod_nat size_of fold_right]. fold (prod_nat (map N.to_nat shp)).
  fold (size_of shp). rewrite IH. lia.
Qed.

(** [a.T.T] is [a]. *)
Lemma transpose_involutive (a : ndarray) : wf a -> transpose (transpose a) = a.
Proof.
  intros Hwf. unfold wf in Hwf. destruct a as [dt shp dat].
  unfold transpose. cbn [dtype_of shape data] in *.
  rewrite rev_involutive. f_equal.
  set (s := map N.to_nat shp).
  rewrite map_rev. fold s. rewrite rev_involutive.
  assert (Hlen : length dat = prod_nat s).
  { unfold s. rewrite prod_nat_to_nat. lia. }
  set (g := fun J : list nat => nth (offset s (rev J)) dat 0%Z).
  etrans; [|apply (map_nth_seq dat 0%Z)].
  rewrite Hlen, <- map_offset_indices, map_map.
  apply map_ext_in. intros I HI.
  destruct (nth_offset_indices _ _ (in_indices_rev _ _ HI)) as [Hlt Hnth].
  rewrite (nth_indep _ 0%Z (g [])) by (rewrite length_map, length_indices; exact Hlt).
  rewrite (map_nth g), Hnth. unfold g. by rewrite rev_involutive.
Qed.

End Transposition.

(** X14.  [save_itk_image] hands ITK the transposed array and writes the
    image with the geometry of the transform; [open_itk_image] returns
    the transpose of ITK's view of the image read.  The two transposes
    cancel: when the view that is read back is the buffer that was
    written, the array returned is the array that was saved. *)
Theorem itk_transposes_cancel `{E : External}
    (array ijk_to_ras array' T' : ndarray) (path : Path) (fs fs1 fs2 : FS) :
  wf array ->
  save_itk_image array ijk_to_ras path fs = (OK tt, fs1) ->
  open_itk_image path fs1 = (OK (array', T'), fs2) ->
  exists written origin rotation spacing read,
    itk_image_view_from_array (transpose array) = OK written
    /\ get_itk_metadata_from_ijk_to_ras ijk_to_ras = OK (origin, rotation, spacing)
    /\ itk_imwrite
         (itk_SetSpacing (itk_SetDirection (itk_SetOrigin written origin) rotation) spacing)
         path fs = (OK tt, fs1)
    /\ itk_imread path fs1 = (OK read, fs2)
    /\ create_ijk_to_ras_from_itk_image read = OK T'
    /\ array' = transpose (itk_array_view_from_image read)
    /\ (itk_array_view_from_image read = transpose array -> array' = array).
Proof.
  intros Hwf Hsave Hopen.
  unfold save_itk_image, bind, lift in Hsave.
  destruct (itk_image_view_from_array (transpose array)) as [written|] eqn:Hw; [|discriminate].
  destruct (get_itk_metadata_from_ijk_to_ras ijk_to_ras) as [[[origin rotation] spacing]|] eqn:Hm;
    [|discriminate].
  unfold open_itk_image, bind, lift, ret in Hopen.
  destruct (itk_imread path fs1) as [[read|] fs2'] eqn:Hr; [|discriminate].
  destruct (create_ijk_to_ras_from_itk_image read) as [T''|] eqn:Hc; [|discriminate].
  injection Hopen as <- <- <-.
  exists written, origin, rotation, spacing, read.
  repeat split; try assumption; try reflexivity.
  intros ->. by apply transpose_involutive.
Qed.

(** X14, instance: a vector of three bytes. *)
Lemma itk_transposes_cancel_witness :
  exists written origin rotation spacing read,
    itk_image_view_from_array (External := Fixture.externals) (transpose Samples.vector3) = OK written
    /\ get_itk_metadata_from_ijk_to_ras (External := Fixture.externals) Fixture.identity4
       = OK (origin, rotation, spacing)
    /\ itk_imwrite (External := Fixture.externals)
         (itk_SetSpacing (itk_SetDirection (itk_SetOrigin written origin) rotation) spacing)
         "scan.nii" ∅ = (OK tt, <["scan.nii" := RawFile [1; 2; 3]]> ∅)
    /\ itk_imread (External := Fixture.externals) "scan.nii" (<["scan.nii" := RawFile [1; 2; 3]]> ∅)
       = (OK read, <["scan.nii" := RawFile [1; 2; 3]]> ∅)
    /\ create_ijk_to_ras_from_itk_image (External := Fixture.externals) read = OK Fixture.identity4
    /\ Samples.vector3 = transpose (itk_array_view_from_image (External := Fixture.externals) read)
    /\ (itk_array_view_from_image (External := Fixture.externals) read = transpose Samples.vector3
        -> Samples.vector3 = Samples.vector3).
Proof.
  apply (itk_transposes_cancel (E := Fixture.externals) Samples.vector3 Fixture.identity4
           Samples.vector3 Fixture.identity4 "scan.nii" ∅); reflexivity.
Defined.

(** X16.  When the archive lacks a member, [open_jvol] raises [KeyError]
    naming the first missing member in the order in which the members are
    read (transform, table, Huffman parts, then the arguments of
    [decode_array]), provided the stored transform rows can be completed;
    the decoder is not called. *)
Theorem open_jvol_names_first_missing_member `{E : External}
    (path : Path) (fs : FS) (d : gmap string ndarray) (pre post : list string) (k : string) :
  archive_at fs path = Some d ->
  read_order = (pre ++ k :: post)%list ->
  Forall (fun k' => is_Some (d !! k')) pre ->
  d !! k = None ->
  (forall m, d !! "ijk_to_ras" = Some m -> exists T, fill_ijk_to_ras m = OK T) ->
  open_jvol path fs = (Error (KeyError k), fs).
Proof.
  intros Hat Hord Hpre Hk Hfill.
  rewrite open_jvol_unfold. unfold archive_at in Hat.
  destruct (fs !! path) as [[d'|]|]; try discriminate. injection Hat as ->.
  f_equal. unfold parse_container, load_huffman, getitem. cbn [value].
  unfold read_order in Hord.
  repeat (destruct pre as [|k0 pre]; cbn [app] in Hord;
          [ injection Hord as <- _
          | injection Hord as <- Hord;
            apply Forall_cons in Hpre as [[? ?] Hpre] ]);
    try (destruct pre; discriminate Hord);
    repeat match goal with
           | H : d !! ?key = _ |- context [d !! ?key] => rewrite H; cbn [rbind]
           | H : d !! "ijk_to_ras" = Some ?m |- context [fill_ijk_to_ras ?m] =>
               let T := fresh "T" in
               destruct (Hfill m H) as [T ->]; cbn [rbind]
           end;
    reflexivity.
Qed.

(** X16, instance: [huffman_data] and [shape] are both missing. *)
Lemma open_jvol_names_first_missing_member_witness :
  open_jvol (E := Fixture.externals) "scan.jvol"
    (<["scan.jvol" := NpzFile (delete "shape" (delete "huffman_data"
                                 (Fixture.sample_archive Fixture.volume_2x1x3)))]> ∅)
  = (Error (KeyError "huffman_data"),
     <["scan.jvol" := NpzFile (delete "shape" (delete "huffman_data"
                                 (Fixture.sample_archive Fixture.volume_2x1x3)))]> ∅).
Proof.
  apply (open_jvol_names_first_missing_member (E := Fixture.externals) "scan.jvol" _
           (delete "shape" (delete "huffman_data" (Fixture.sample_archive Fixture.volume_2x1x3)))
           [ "ijk_to_ras"; "quantization_block" ]
           [ "huffman_symbols_values"; "huffman_symbols_counts";
             "huffman_bitsizes"; "huffman_values"; "huffman_eof_symbol";
             "dc_rle_values"; "dc_rle_counts"; "shape"; "intercept"; "slope"; "dtype" ]
           "huffman_data").
  - reflexivity.
  - reflexivity.
  - repeat constructor; eexists; reflexivity.
  - reflexivity.
  - intros m Hm. change (Some Fixture.identity_rows = Some m) in Hm.
    injection Hm as <-. eexists. reflexivity.
Defined.


(** X15, instance: the sample volume. *)
Lemma open_jvol_decodes_what_save_jvol_computed_witness :
  exists qt lo hi dv dc av ac h rows,
    get_quantization_table (E := Fixture.externals) (4, 4, 4) 60 = OK qt
    /\ array_min (E := Fixture.externals) Fixture.volume_2x1x3 = OK lo
    /\ array_max (E := Fixture.externals) Fixture.volume_2x1x3 = OK hi
    /\ encode_array (External := Fixture.externals) Fixture.volume_2x1x3 qt = OK (dv, dc, av, ac)
    /\ HuffmanCoding_from_rle (External := Fixture.externals) av ac = OK h
    /\ slice_rows 3 Fixture.identity4 = OK rows
    /\ open_jvol (E := Fixture.externals) "scan.jvol" (Fixture.sample_fs Fixture.volume_2x1x3)
       = (rbind (fill_ijk_to_ras (E := Fixture.externals) rows) (fun T' =>
          rbind (decode_array (E := Fixture.externals) (to_min_scalar_type dv) dc qt
                   (array_of_ints UInt16 (map Z.of_N (shape Fixture.volume_2x1x3)))
                   (asarray lo) (asarray (scalar_sub (E := Fixture.externals) hi lo))
                   (dtype_of Fixture.volume_2x1x3) h)
                (fun a => OK (a, T'))),
          Fixture.sample_fs Fixture.volume_2x1x3).
Proof.
  apply (open_jvol_decodes_what_save_jvol_computed (E := Fixture.externals)
           Fixture.volume_2x1x3 Fixture.identity4 "scan.jvol" 4 60 ∅).
  reflexivity.
Defined.
